(** * Tableau de bord académique: the data pipeline of [app.py]

    A shallow embedding of the grade dashboard's computations: the loader
    [load_data], the student list [student_options], the selection callback
    [prepare_student_data] and the three statistics callbacks
    [update_grades_graph], [update_average_grade_chart] and
    [update_statistics].

    Modelling conventions.
    - A pandas frame with the five required columns is the list of its rows
      ([GradeRecord]), in row order; [df.empty] is emptiness of that list.
    - Text is [string], a sequence of bytes (UTF-8).  Python orders [str] by
      code point, which on UTF-8 text is the byte-wise lexicographic order
      [String.leb].
    - A grade is a finite binary64 number, modelled by its exact value, a
      rational ([Q]); Python's numeric [<] and [==] and pandas' minimum and
      maximum are exact on such values ([Qlt], [Qeq], [Qmin], [Qmax]).  The
      operations that round, pandas' means and [Series.round], are not
      defined by [app.py]: they are the parameter [fp] of the model, an
      [Arithmetic].  A missing aggregate (pandas' NaN of an empty group or
      an unmatched join) is [None].
    - [print] appends a line to a log that is returned with the result.
    - A figure is the record of what its traces are built from. *)

From Stdlib Require Import List String Ascii Bool Arith ZArith QArith Qround Qminmax.
From Stdlib Require Import DecimalString Lia Lqa Permutation Sorted Mergesort Orders OrdersEx RelationClasses.
Import ListNotations.

Local Open Scope string_scope.
Local Open Scope list_scope.

(** ** Strings: order, [sorted], [split] *)

Module StringOrder <: TotalLeBool.

Definition t := string.

Definition leb (a b : string) : bool := String.leb a b.

Theorem leb_total : forall a b, leb a b = true \/ leb b a = true.
Proof. exact String.leb_total. Qed.

End StringOrder.

Module StringSort := Sort StringOrder.

(** Python's [sorted] on a list of [str]. *)
Definition sorted (l : list string) : list string := StringSort.sort l.

(** Membership test on strings ([x in seen]). *)
Definition mem (x : string) (l : list string) : bool :=
  existsb (String.eqb x) l.

(** Distinct values in order of first appearance ([Series.unique], and the
    elements of [set(...)] before they are sorted). *)
Fixpoint unique_from (seen : list string) (l : list string) : list string :=
  match l with
  | [] => []
  | x :: l' =>
      if mem x seen then unique_from seen l'
      else x :: unique_from (x :: seen) l'
  end.

Definition unique (l : list string) : list string := unique_from [] l.

(** [Series.nunique]. *)
Definition nunique (l : list string) : nat := List.length (unique l).

(** [s.split(' ', 1)]: cut at the first space, at most once. *)
Fixpoint split_space_1 (s : string) : list string :=
  match s with
  | EmptyString => [EmptyString]
  | String c s' =>
      if Ascii.eqb c " "%char then [EmptyString; s']
      else match split_space_1 s' with
           | p :: rest => String c p :: rest
           | [] => [String c EmptyString]
           end
  end.

(** ** Data model *)

(** One row of the grade sheet. [Matiere] is the column 'Matière'. *)
Record GradeRecord := mkRecord {
  Nom : string;
  Prenom : string;
  Matiere : string;
  Note : Q;
  UE : string
}.

Definition DataFrame := list GradeRecord.

Definition empty (df : DataFrame) : bool :=
  match df with [] => true | _ => false end.

(** ** [load_data]

    The loader only looks at the file system and at the header of what
    [pd.read_excel] returns, so the sheet keeps its cells uninterpreted. *)

Inductive Cell :=
| CellText (s : string)
| CellNumber (q : Q)
| CellBlank.

Record Sheet := mkSheet {
  columns : list string;
  body : list (list Cell)
}.

(** [pd.DataFrame()]. *)
Definition empty_frame : Sheet := mkSheet [] [].

(** What the try block can observe of [pd.read_excel]: an exception with its
    message, or the parsed sheet. *)
Inductive ReadResult :=
| Raises (e : string)
| Parsed (sheet : Sheet).

(** The environment of the loader: [os.path.exists] and [pd.read_excel]. *)
Record FileSystem := mkFS {
  path_exists : string -> bool;
  read_excel : string -> ReadResult
}.

Definition required_columns : list string :=
  ["Nom"; "Prenom"; "Matière"; "Note"; "UE"].

Definition issubset (required cols : list string) : bool :=
  forallb (fun c => mem c cols) required.

Definition load_data (fs : FileSystem) (file_path : string)
  : Sheet * list string :=
  if negb (path_exists fs file_path) then
    (empty_frame,
     [("Erreur : Le fichier " ++ file_path ++ " est introuvable.")%string])
  else
    match read_excel fs file_path with
    | Parsed df =>
        if negb (issubset required_columns (columns df)) then
          (empty_frame,
           ["Erreur : Colonnes manquantes dans le fichier Excel."])
        else (df, [])
    | Raises e =>
        (empty_frame, [("Erreur lors du chargement du fichier : " ++ e)%string])
    end.

(** ** [student_options] *)

Definition student_key (r : GradeRecord) : string * string :=
  (Nom r, Prenom r).

Definition key_eqb (k1 k2 : string * string) : bool :=
  String.eqb (fst k1) (fst k2) && String.eqb (snd k1) (snd k2).

(** [df.drop_duplicates(subset=['Nom', 'Prenom'])]: the first row of every
    (Nom, Prenom) pair, in row order. *)
Fixpoint drop_duplicates_from (seen : list (string * string))
  (df : DataFrame) : DataFrame :=
  match df with
  | [] => []
  | r :: df' =>
      if existsb (key_eqb (student_key r)) seen
      then drop_duplicates_from seen df'
      else r :: drop_duplicates_from (student_key r :: seen) df'
  end.

Definition drop_duplicates (df : DataFrame) : DataFrame :=
  drop_duplicates_from [] df.

(** The lambda [f"{x['Prenom']} {x['Nom']}"]. *)
Definition full_name (r : GradeRecord) : string :=
  (Prenom r ++ " " ++ Nom r)%string.

Definition unique_students (df : DataFrame) : list string :=
  sorted (map full_name (drop_duplicates df)).

Record DropdownOption := mkOption { label : string; value : string }.

Definition student_options (df : DataFrame) : list DropdownOption :=
  if negb (empty df)
  then map (fun student => mkOption student student) (unique_students df)
  else [].

(** The initial value of the student dropdown in the layout:
    [student_options[0]['value'] if student_options else None]. *)
Definition initial_student (df : DataFrame) : option string :=
  match student_options df with
  | first :: _ => Some (value first)
  | [] => None
  end.

(** ** Callback 1: [prepare_student_data] *)

(** The dictionary kept in the 'student-data-store'. *)
Record StudentData := mkStudentData {
  student_records : list GradeRecord;
  available_ues : list string;
  student_name : string
}.

(** Python truthiness of an optional string: [None] and [''] are falsy. *)
Definition truthy (s : option string) : bool :=
  match s with
  | Some (String _ _) => true
  | _ => false
  end.

Definition student_mask (prenom nom : string) (r : GradeRecord) : bool :=
  String.eqb (Prenom r) prenom && String.eqb (Nom r) nom.

Definition prepare_student_data (df : DataFrame)
  (selected_student : option string) : option StudentData * list string :=
  match selected_student with
  | None => (None, [])
  | Some selected =>
      if negb (truthy selected_student) || empty df then (None, [])
      else
        match split_space_1 selected with
        | [prenom; nom] =>
            if negb (existsb (student_mask prenom nom) df) then
              (None,
               [("Aucune donnée trouvée pour l'étudiant: " ++ selected)%string])
            else
              let student_data := filter (student_mask prenom nom) df in
              let ues := sorted (unique (map UE student_data)) in
              (Some (mkStudentData student_data ues selected), [])
        | _ =>
            (None,
             [("Format de nom d'étudiant incorrect: " ++ selected)%string])
        end
  end.

(** ** Callback 2: [update_ue_dropdown] *)

Definition update_ue_dropdown (student_data : option StudentData)
  : list DropdownOption * option string :=
  match student_data with
  | None => ([], None)
  | Some sd =>
      (map (fun ue => mkOption ue ue) (sorted (available_ues sd)), None)
  end.

(** ** The per-unit table and its order *)

(** A row of [average_grades] after the merge: the unit, its rounded mean
    and, in the column named 'Matière', its number of distinct subjects. *)
Record AverageRow := mkAverageRow {
  av_UE : string;
  av_Note : option Q;
  av_Matiere : nat
}.

Module AverageRowOrder <: TotalLeBool.

Definition t := AverageRow.

Definition leb (a b : AverageRow) : bool := String.leb (av_UE a) (av_UE b).

Definition leb_total (a b : AverageRow)
  : leb a b = true \/ leb b a = true :=
  String.leb_total (av_UE a) (av_UE b).

End AverageRowOrder.

Module AverageRowSort := Sort AverageRowOrder.

(** [average_grades.sort_values('UE')]. *)
Definition sort_values_UE (rows : list AverageRow) : list AverageRow :=
  AverageRowSort.sort rows.

(** ** Series aggregates *)

Local Open Scope Q_scope.

Definition Qltb (x y : Q) : bool :=
  match x ?= y with Lt => true | _ => false end.

Definition Qsum (l : list Q) : Q := fold_right Qplus 0 l.

(** [Series.min] and [Series.max]. *)
Definition series_min (l : list Q) : option Q :=
  match l with
  | [] => None
  | x :: l' => Some (fold_left Qmin l' x)
  end.

Definition series_max (l : list Q) : option Q :=
  match l with
  | [] => None
  | x :: l' => Some (fold_left Qmax l' x)
  end.

(** ** The arithmetic of the libraries

    The binary64 operations of pandas and numpy that round their result.
    Which sum a mean divides (in row order, pairwise, compensated) is the
    libraries' choice, and so is the way [Series.round] scales and rounds; a
    value of this record fixes them.  [grouped_mean] is [GroupBy.mean] on
    the notes of one group, [column_mean] is [Series.mean] on a column of
    notes (both on at least one note), [column_round] is [Series.round]. *)
Record Arithmetic := mkArithmetic {
  grouped_mean : list Q -> Q;
  column_mean : list Q -> Q;
  column_round : nat -> Q -> Q
}.

Section Pipeline.

Variable fp : Arithmetic.

(** [Series.mean]; the mean of no value is NaN. *)
Definition series_mean (l : list Q) : option Q :=
  match l with
  | [] => None
  | _ => Some (column_mean fp l)
  end.

(** [GroupBy.mean] on the notes of a group. *)
Definition group_mean (l : list Q) : option Q :=
  match l with
  | [] => None
  | _ => Some (grouped_mean fp l)
  end.

(** [df.groupby(key)]: one group per distinct key, keys in ascending order,
    each group holding its rows in row order. *)
Definition groupby (key : GradeRecord -> string) (df : DataFrame)
  : list (string * list GradeRecord) :=
  map (fun k => (k, filter (fun r => String.eqb (key r) k) df))
      (sorted (unique (map key df))).

(** ** Callback 3: [update_grades_graph] *)

(** A row of [class_stats] after the columns are renamed. *)
Record ClassStat := mkClassStat {
  cs_Matiere : string;
  cs_Moyenne_Classe : option Q;
  cs_Min_Classe : option Q;
  cs_Max_Classe : option Q
}.

Definition class_stats (df : DataFrame) : list ClassStat :=
  map (fun g =>
         let notes := map Note (snd g) in
         mkClassStat (fst g) (group_mean notes) (series_min notes)
                     (series_max notes))
      (groupby Matiere df).

(** A row of [plot_data]: the student's row and the joined class columns. *)
Record PlotRow := mkPlotRow {
  pr_row : GradeRecord;
  Moyenne_Classe : option Q;
  Min_Classe : option Q;
  Max_Classe : option Q
}.

(** [student_df.merge(class_stats, on='Matière', how='left')]: every left
    row, in order, once per right row with the same key, or once with
    missing class columns when no right row has that key. *)
Definition merge_left (student_df : DataFrame) (stats : list ClassStat)
  : list PlotRow :=
  flat_map
    (fun r =>
       match filter (fun c => String.eqb (cs_Matiere c) (Matiere r)) stats with
       | [] => [mkPlotRow r None None None]
       | matches =>
           map (fun c => mkPlotRow r (cs_Moyenne_Classe c) (cs_Min_Classe c)
                                   (cs_Max_Classe c))
               matches
       end)
    student_df.

(** The loop that fills [colors_per_grade]. *)
Definition color_per_grade (note : Q) : string :=
  if Qltb note 10 then "red"
  else if Qeq_bool note 10 then "orange"
  else "green".

(** [student_df[student_df['UE'] == selected_ue]] under [if selected_ue]. *)
Definition filter_ue (selected_ue : option string) (student_df : DataFrame)
  : DataFrame :=
  if truthy selected_ue then
    match selected_ue with
    | Some ue => filter (fun r => String.eqb (UE r) ue) student_df
    | None => student_df
    end
  else student_df.

(** The grades figure: its title, the joined table the four traces read
    their x and y from, the bar colours, and the count that positions the
    right end of the pass line. *)
Record GradesFigure := mkGradesFigure {
  gf_title : string;
  plot_data : list PlotRow;
  colors_per_grade : list string;
  gf_unique_matieres : nat
}.

Inductive GradesGraph :=
| GradesPlaceholder (title : string)
| GradesFig (fig : GradesFigure).

Definition update_grades_graph (df : DataFrame)
  (student_data : option StudentData) (selected_ue : option string)
  : GradesGraph :=
  match student_data with
  | None => GradesPlaceholder "Aucun étudiant sélectionné."
  | Some sd =>
      let student_df := filter_ue selected_ue (student_records sd) in
      if empty student_df then GradesPlaceholder "Aucune note disponible."
      else
        let plot := merge_left student_df (class_stats df) in
        let colours := map (fun row => color_per_grade (Note (pr_row row))) plot in
        GradesFig
          (mkGradesFigure
             ("Performance détaillée de " ++ student_name sd)%string
             plot colours
             (List.length (unique (map (fun row => Matiere (pr_row row)) plot))))
  end.

(** The rows of the per-subject comparison a figure shows (none for a
    placeholder). *)
Definition comparison_rows (g : GradesGraph) : list PlotRow :=
  match g with
  | GradesPlaceholder _ => []
  | GradesFig fig => plot_data fig
  end.

Definition comparison_colors (g : GradesGraph) : list string :=
  match g with
  | GradesPlaceholder _ => []
  | GradesFig fig => colors_per_grade fig
  end.

(** ** Rounding and number formatting *)

(** Round to the nearest integer, ties to the even one: the rounding of
    the format specs [.1f] and [.2f], which print the decimal nearest to the
    exact value of the number. *)
Definition rint (x : Q) : Z :=
  let f := Qfloor x in
  match ((x - inject_Z f) ?= (1 # 2))%Q with
  | Lt => f
  | Gt => (f + 1)%Z
  | Eq => if Z.even f then f else (f + 1)%Z
  end.

Definition pow10 (decimals : nat) : Z := (10 ^ Z.of_nat decimals)%Z.

(** Rounding to [decimals] places without any rounding error: the nearest
    multiple of the decimal unit, ties to even. *)
Definition round_decimals (decimals : nat) (x : Q) : Q :=
  inject_Z (rint (x * inject_Z (pow10 decimals))) / inject_Z (pow10 decimals).

Definition decimal_of_Z (z : Z) : string :=
  NilZero.string_of_uint (N.to_uint (Z.to_N z)).

Fixpoint zeros (n : nat) : string :=
  match n with
  | O => EmptyString
  | S n' => String "0"%char (zeros n')
  end.

(** The format spec [.{decimals}f] (for [decimals > 0]). *)
Definition format_fixed (decimals : nat) (x : Q) : string :=
  let h := Z.abs (rint (x * inject_Z (pow10 decimals))) in
  let frac := decimal_of_Z (h mod pow10 decimals) in
  ((if Qltb x 0 then "-" else "")
   ++ decimal_of_Z (h / pow10 decimals) ++ "."
   ++ zeros (decimals - String.length frac) ++ frac)%string.

(** ** Callback 4: [update_average_grade_chart] *)

(** The colour theme (the entries the callbacks read). *)
Definition colors_success : string := "#2ecc71".
Definition colors_warning : string := "#e74c3c".

(** [filtered_df.groupby('UE')['Note'].mean()] followed by [.round(1)]. *)
Definition average_grades_by_ue (filtered_df : DataFrame)
  : list (string * option Q) :=
  map (fun g => (fst g,
                 option_map (column_round fp 1) (group_mean (map Note (snd g)))))
      (groupby UE filtered_df).

(** [filtered_df.groupby('UE')['Matière'].nunique()]. *)
Definition ue_counts (filtered_df : DataFrame) : list (string * nat) :=
  map (fun g => (fst g, nunique (map Matiere (snd g))))
      (groupby UE filtered_df).

(** [average_grades.merge(ue_counts, on='UE')], an inner join. *)
Definition merge_inner (averages : list (string * option Q))
  (counts : list (string * nat)) : list AverageRow :=
  flat_map
    (fun a =>
       map (fun c => mkAverageRow (fst a) (snd a) (snd c))
           (filter (fun c => String.eqb (fst c) (fst a)) counts))
    averages.

(** The loop that fills [bar_colors], on a number. *)
Definition bar_color (note : Q) : string :=
  if Qltb note 10 then colors_warning
  else if Qeq_bool note 10 then "orange"
  else colors_success.

(** The same loop on a cell of the 'Note' column: on NaN both comparisons
    are false. *)
Definition bar_color_cell (note : option Q) : string :=
  match note with
  | Some q => bar_color q
  | None => colors_success
  end.

(** A format spec applied to a cell: NaN prints as [nan]. *)
Definition format_cell (decimals : nat) (note : option Q) : string :=
  match note with
  | Some q => format_fixed decimals q
  | None => "nan"
  end.

Record AverageFigure := mkAverageFigure {
  average_grades : list AverageRow;
  bar_texts : list string;
  bar_colors : list string
}.

Inductive AverageChart :=
| AveragePlaceholder (title : string)
| AverageFig (fig : AverageFigure).

Definition update_average_grade_chart (student_data : option StudentData)
  : AverageChart :=
  match student_data with
  | None => AveragePlaceholder "Aucun étudiant sélectionné."
  | Some sd =>
      let filtered_df := student_records sd in
      if empty filtered_df then AveragePlaceholder "Aucune donnée disponible."
      else
        let merged :=
          merge_inner (average_grades_by_ue filtered_df) (ue_counts filtered_df) in
        let rows := sort_values_UE merged in
        AverageFig
          (mkAverageFigure rows
             (map (fun row => format_cell 1 (av_Note row)) rows)
             (map (fun row => bar_color_cell (av_Note row)) rows))
  end.

Definition average_rows (c : AverageChart) : list AverageRow :=
  match c with
  | AveragePlaceholder _ => []
  | AverageFig fig => average_grades fig
  end.

Definition average_colors (c : AverageChart) : list string :=
  match c with
  | AveragePlaceholder _ => []
  | AverageFig fig => bar_colors fig
  end.

(** ** Callback 5: [update_statistics] *)

(** A card: the heading, the big figure and the CSS class of the figure. *)
Record StatCard := mkStatCard {
  card_heading : string;
  card_value : string;
  card_class : string
}.

(** What a callback puts in a [children] property. *)
Inductive Children :=
| Text (s : string)
| Card (c : StatCard).

Definition string_of_nat (n : nat) : string :=
  NilZero.string_of_uint (Nat.to_uint n).

(** [moyenne >= 10] on a cell: false on NaN. *)
Definition ge_10 (moyenne : option Q) : bool :=
  match moyenne with
  | Some q => Qle_bool 10 q
  | None => false
  end.

Definition update_statistics (student_data : option StudentData)
  : Children * Children :=
  match student_data with
  | None => (Text "Pas de données", Text "Pas de données")
  | Some sd =>
      let filtered_df := student_records sd in
      if empty filtered_df then (Text "Pas de données", Text "Pas de données")
      else
        let moyenne := series_mean (map Note filtered_df) in
        let nb_matieres := nunique (map Matiere filtered_df) in
        (Card (mkStatCard "Moyenne générale"
                 (format_cell 2 moyenne ++ "/20")%string
                 (if ge_10 moyenne then "text-success" else "text-danger")),
         Card (mkStatCard "Nombre de matières"
                 (string_of_nat nb_matieres) "text-primary"))
  end.

(** ** The callback graph

    One refresh of the page for given dropdown values: the store is filled
    from the student dropdown, and every other callback reads the inputs its
    decorator declares. *)
Record Dashboard := mkDashboard {
  store : option StudentData;
  ue_options : list DropdownOption;
  grades_graph : GradesGraph;
  average_chart : AverageChart;
  moyenne_generale : Children;
  nombre_matieres : Children
}.

Definition refresh (df : DataFrame) (student_dropdown ue_dropdown : option string)
  : Dashboard :=
  let data := fst (prepare_student_data df student_dropdown) in
  let stats := update_statistics data in
  mkDashboard data
    (fst (update_ue_dropdown data))
    (update_grades_graph df data ue_dropdown)
    (update_average_grade_chart data)
    (fst stats) (snd stats).

(** * Vocabulary of the specification

    The notions the properties below are stated with. *)

(** Ascending and strictly ascending order of two strings. *)
Definition str_le (a b : string) : Prop := String.leb a b = true.

Definition str_lt (a b : string) : Prop := String.ltb a b = true.

(** A string contains a space when it can be cut around one. *)
Definition contains_space (s : string) : Prop :=
  exists a b : string, s = (a ++ " " ++ b)%string.

(** The space-separated tokens of a name, as the specification counts them
    ([s.split(' ')], every space cutting). *)
Fixpoint space_separated (s : string) : list string :=
  match s with
  | EmptyString => [EmptyString]
  | String c s' =>
      if Ascii.eqb c " "%char then EmptyString :: space_separated s'
      else match space_separated s' with
           | p :: rest => String c p :: rest
           | [] => [String c EmptyString]
           end
  end.

(** What it is to be the minimum and the maximum of a column; a column
    without values has none of them. *)
Definition is_min (l : list Q) (o : option Q) : Prop :=
  match o with
  | Some m => In m l /\ Forall (fun y => m <= y) l
  | None => l = []
  end.

Definition is_max (l : list Q) (o : option Q) : Prop :=
  match o with
  | Some m => In m l /\ Forall (fun y => y <= m) l
  | None => l = []
  end.

(** The mean without any rounding error. *)
Definition exact_mean (l : list Q) : Q :=
  Qsum l / inject_Z (Z.of_nat (List.length l)).






(** The arithmetic without rounding error: exact means, exact rounding to
    the nearest decimal (ties to even). It keeps the laws above. *)
Definition exact_arithmetic : Arithmetic :=
  mkArithmetic exact_mean exact_mean round_decimals.

(** The notes of all rows of a subject, and the rows of a unit. *)
Definition subject_notes (df : DataFrame) (matiere : string) : list Q :=
  map Note (filter (fun r => String.eqb (Matiere r) matiere) df).

Definition unit_rows (df : DataFrame) (ue : string) : DataFrame :=
  filter (fun r => String.eqb (UE r) ue) df.

(** The class statistics of one subject over the whole table. *)
Definition class_stat_of (df : DataFrame) (matiere : string) : ClassStat :=
  mkClassStat matiere
    (group_mean (subject_notes df matiere))
    (series_min (subject_notes df matiere))
    (series_max (subject_notes df matiere)).

(** The left join with the class statistics adds to every student row the
    aggregates of all the notes of its subject in the whole table. *)
Definition joined_row (df : DataFrame) (r : GradeRecord) : PlotRow :=
  mkPlotRow r
    (group_mean (subject_notes df (Matiere r)))
    (series_min (subject_notes df (Matiere r)))
    (series_max (subject_notes df (Matiere r))).

(** The row of one unit in the per-unit table of a student's records. *)
Definition average_row_of (filtered_df : DataFrame) (ue : string) : AverageRow :=
  mkAverageRow ue
    (option_map (column_round fp 1)
       (group_mean (map Note (unit_rows filtered_df ue))))
    (nunique (map Matiere (unit_rows filtered_df ue))).

(** The three buckets a grade is shown in. *)
Inductive Bucket := BelowPassing | Boundary | Passing.

(** The classification as the specification words it. *)
Definition bucket (grade : Q) : Bucket :=
  match grade ?= 10 with
  | Lt => BelowPassing
  | Eq => Boundary
  | Gt => Passing
  end.

(** The colour that stands for a bucket in each chart. *)
Definition grades_legend (b : Bucket) : string :=
  match b with
  | BelowPassing => "red"
  | Boundary => "orange"
  | Passing => "green"
  end.

Definition average_legend (b : Bucket) : string :=
  match b with
  | BelowPassing => colors_warning
  | Boundary => "orange"
  | Passing => colors_success
  end.

(** [n] is the number of distinct values of a column. *)
Definition distinct_count (l : list string) (n : nat) : Prop :=
  exists l' : list string,
    NoDup l' /\ (forall x, In x l' <-> In x l) /\ List.length l' = n.

(** A table in which a student has two notes in one subject. *)
Definition retake_table : DataFrame :=
  [mkRecord "Dupont" "Jean" "Math" 8 "UE1";
   mkRecord "Dupont" "Jean" "Math" 12 "UE1"].

(** The selection of the student of [retake_table]. *)
Definition retake_selection : StudentData :=
  mkStudentData retake_table ["UE1"%string] "Jean Dupont".

(** * Properties *)

(** ** The order on strings *)

Lemma compare_refl (a : string) : String.compare a a = Eq.
Proof.
  induction a as [|x a IH]; simpl; [reflexivity|].
  unfold Ascii.compare; rewrite N.compare_refl; exact IH.
Qed.

Lemma str_le_refl (a : string) : str_le a a.
Proof. unfold str_le, String.leb. now rewrite compare_refl. Qed.

Lemma ltb_as_OT (a b : string) : str_lt a b <-> String_as_OT.lt a b.
Proof.
  unfold str_lt, String.ltb, String_as_OT.lt.
  change (String_as_OT.compare a b) with (String.compare a b).
  destruct (String.compare a b); split; congruence.
Qed.

Lemma str_lt_trans (a b c : string) : str_lt a b -> str_lt b c -> str_lt a c.
Proof.
  rewrite !ltb_as_OT.
  exact (@StrictOrder_Transitive _ _ String_as_OT.lt_strorder a b c).
Qed.

Lemma str_le_cases (a b : string) : str_le a b <-> str_lt a b \/ a = b.
Proof.
  unfold str_le, str_lt, String.leb, String.ltb; split.
  - destruct (String.compare a b) eqn:E; intros H; try discriminate; auto.
    right; now apply String.compare_eq_iff.
  - intros [H | ->]; [|now rewrite compare_refl].
    destruct (String.compare a b); auto; discriminate.
Qed.

Lemma str_lt_irrefl (a : string) : ~ str_lt a a.
Proof. unfold str_lt, String.ltb; rewrite compare_refl; discriminate. Qed.

Lemma str_le_trans (a b c : string) : str_le a b -> str_le b c -> str_le a c.
Proof.
  rewrite !str_le_cases; intros [H1 | ->] [H2 | ->]; auto.
  left; eapply str_lt_trans; eassumption.
Qed.

Lemma leb_transitive : Transitive (fun a b => is_true (StringOrder.leb a b)).
Proof. intros a b c; apply str_le_trans. Qed.

(** ** [sorted] *)

Lemma sorted_perm (l : list string) : Permutation l (sorted l).
Proof. apply StringSort.Permuted_sort. Qed.

Lemma sorted_In (l : list string) (x : string) : In x (sorted l) <-> In x l.
Proof.
  split; apply Permutation_in; [symmetry|]; apply sorted_perm.
Qed.

Lemma sorted_ascending (l : list string) : StronglySorted str_le (sorted l).
Proof. apply StringSort.StronglySorted_sort, leb_transitive. Qed.

Lemma sorted_NoDup (l : list string) : NoDup l -> NoDup (sorted l).
Proof. intros H; eapply Permutation_NoDup; [apply sorted_perm | exact H]. Qed.

(** An ascending list without repetition is strictly ascending. *)
Lemma ascending_NoDup_strict (l : list string) :
  StronglySorted str_le l -> NoDup l -> StronglySorted str_lt l.
Proof.
  induction 1 as [|a l Hs IH Hall]; intros Hnd; constructor.
  - apply IH; now inversion Hnd.
  - inversion Hnd as [|? ? Hnotin _]; subst.
    rewrite Forall_forall in *; intros x Hx.
    destruct (proj1 (str_le_cases a x) (Hall x Hx)) as [Hlt | ->]; tauto.
Qed.

Lemma strict_NoDup (l : list string) : StronglySorted str_lt l -> NoDup l.
Proof.
  induction 1 as [|a l Hs IH Hall]; constructor; auto.
  intros Hin; rewrite Forall_forall in Hall.
  exact (str_lt_irrefl a (Hall a Hin)).
Qed.

(** ** [unique] *)

Lemma mem_In (x : string) (l : list string) : mem x l = true <-> In x l.
Proof.
  unfold mem; rewrite existsb_exists; split.
  - intros [y [Hy E]]; apply String.eqb_eq in E; now subst.
  - intros H; exists x; split; auto; apply String.eqb_refl.
Qed.

Lemma unique_from_In (l seen : list string) (x : string) :
  In x (unique_from seen l) <-> In x l /\ ~ In x seen.
Proof.
  revert seen; induction l as [|y l IH]; intros seen; simpl; [tauto|].
  destruct (mem y seen) eqn:E.
  - apply mem_In in E; rewrite IH; split.
    + tauto.
    + intros [[-> | H] Hn]; tauto.
  - assert (Hy : ~ In y seen) by (rewrite <- mem_In, E; discriminate).
    simpl; rewrite IH; simpl; split.
    + intros [-> | [H Hn]]; auto; tauto.
    + intros [[-> | H] Hn]; auto.
      destruct (String.eqb_spec y x) as [-> | Hne]; auto.
      right; split; auto; intros [? | ?]; auto.
Qed.

Lemma unique_from_NoDup (l seen : list string) : NoDup (unique_from seen l).
Proof.
  revert seen; induction l as [|y l IH]; intros seen; simpl; [constructor|].
  destruct (mem y seen); auto.
  constructor; auto.
  rewrite unique_from_In; simpl; tauto.
Qed.

Lemma unique_In (l : list string) (x : string) : In x (unique l) <-> In x l.
Proof. unfold unique; rewrite unique_from_In; simpl; tauto. Qed.

Lemma unique_NoDup (l : list string) : NoDup (unique l).
Proof. apply unique_from_NoDup. Qed.

(** The sorted distinct values of a column: strictly ascending, and exactly
    the values that occur. *)
Lemma sorted_unique_strict (l : list string) :
  StronglySorted str_lt (sorted (unique l)).
Proof.
  apply ascending_NoDup_strict;
    [apply sorted_ascending | apply sorted_NoDup, unique_NoDup].
Qed.

Lemma sorted_unique_In (l : list string) (x : string) :
  In x (sorted (unique l)) <-> In x l.
Proof. now rewrite sorted_In, unique_In. Qed.

(** ** [split(' ', 1)] *)

Lemma contains_space_cons (c : ascii) (s : string) :
  contains_space (String c s) <-> c = " "%char \/ contains_space s.
Proof.
  split.
  - intros [[|x a] [b E]]; simpl in E; injection E as -> ->; auto.
    right; now exists a, b.
  - intros [-> | [a [b ->]]].
    + now exists EmptyString, s.
    + now exists (String c a), b.
Qed.

Lemma no_space_empty : ~ contains_space EmptyString.
Proof. intros [[|x a] [b E]]; discriminate. Qed.

Lemma split_no_space (s : string) :
  ~ contains_space s -> split_space_1 s = [s].
Proof.
  induction s as [|c s IH]; intros Hn; simpl; [reflexivity|].
  rewrite contains_space_cons in Hn.
  destruct (Ascii.eqb_spec c " "%char) as [-> | _]; [tauto|].
  rewrite IH; tauto.
Qed.

Lemma split_at_first_space (a b : string) :
  ~ contains_space a -> split_space_1 (a ++ " " ++ b)%string = [a; b].
Proof.
  induction a as [|c a IH]; intros Hn; simpl in *; [reflexivity|].
  rewrite contains_space_cons in Hn.
  destruct (Ascii.eqb_spec c " "%char) as [-> | _]; [tauto|].
  rewrite IH; tauto.
Qed.

(** Every string either has no space or is cut at its first one. *)
Lemma first_space (s : string) :
  ~ contains_space s \/
  exists a b : string, s = (a ++ " " ++ b)%string /\ ~ contains_space a.
Proof.
  induction s as [|c s IH].
  - left; apply no_space_empty.
  - destruct (Ascii.eqb_spec c " "%char) as [-> | Hc].
    + right; exists EmptyString, s; split; auto using no_space_empty.
    + destruct IH as [Hn | [a [b [-> Ha]]]].
      * left; rewrite contains_space_cons; tauto.
      * right; exists (String c a), b; split; auto.
        rewrite contains_space_cons; tauto.
Qed.

Lemma first_space_unique (a b a' b' : string) :
  (a ++ " " ++ b)%string = (a' ++ " " ++ b')%string ->
  ~ contains_space a -> ~ contains_space a' -> a = a' /\ b = b'.
Proof.
  intros E Ha Ha'.
  pose proof (split_at_first_space a b Ha) as H1.
  pose proof (split_at_first_space a' b' Ha') as H2.
  rewrite E in H1; rewrite H1 in H2; now injection H2.
Qed.

(** ** [drop_duplicates] *)

Lemma key_eqb_eq (k1 k2 : string * string) : key_eqb k1 k2 = true <-> k1 = k2.
Proof.
  destruct k1 as [a b], k2 as [c d]; unfold key_eqb; simpl.
  rewrite andb_true_iff, !String.eqb_eq; split.
  - intros [-> ->]; reflexivity.
  - intros E; injection E; auto.
Qed.

Lemma seen_In (k : string * string) (seen : list (string * string)) :
  existsb (key_eqb k) seen = true <-> In k seen.
Proof.
  rewrite existsb_exists; split.
  - intros [k' [Hin E]]; apply key_eqb_eq in E; now subst.
  - intros H; exists k; split; auto; now apply key_eqb_eq.
Qed.

Lemma drop_duplicates_from_keys (df : DataFrame) seen k :
  In k (map student_key (drop_duplicates_from seen df)) <->
  In k (map student_key df) /\ ~ In k seen.
Proof.
  revert seen; induction df as [|r df IH]; intros seen; simpl; [tauto|].
  destruct (existsb (key_eqb (student_key r)) seen) eqn:E.
  - apply seen_In in E; rewrite IH; split; [tauto|].
    intros [[<- | H] Hn]; tauto.
  - assert (Hr : ~ In (student_key r) seen) by (rewrite <- seen_In, E; discriminate).
    simpl; rewrite IH; simpl; split.
    + intros [<- | [H Hn]]; auto; tauto.
    + intros [[<- | H] Hn]; auto.
      destruct (key_eqb (student_key r) k) eqn:Ek.
      * apply key_eqb_eq in Ek; auto.
      * right; split; auto; intros [Ekey | Hs]; auto.
        apply key_eqb_eq in Ekey; congruence.
Qed.


Lemma drop_duplicates_keys (df : DataFrame) k :
  In k (map student_key (drop_duplicates df)) <-> In k (map student_key df).
Proof. unfold drop_duplicates; rewrite drop_duplicates_from_keys; simpl; tauto. Qed.

Lemma student_options_values (df : DataFrame) :
  map value (student_options df) = unique_students df.
Proof.
  unfold student_options; destruct df as [|r df]; [reflexivity|].
  simpl negb; cbv iota.
  rewrite map_map; simpl; apply map_id.
Qed.


(** ** Aggregates *)

Lemma Qmin_cases (x y : Q) : Qmin x y = x \/ Qmin x y = y.
Proof. unfold Qmin, GenericMinMax.gmin; destruct (x ?= y); auto. Qed.

Lemma Qmax_cases (x y : Q) : Qmax x y = x \/ Qmax x y = y.
Proof. unfold Qmax, GenericMinMax.gmax; destruct (x ?= y); auto. Qed.

Lemma fold_min_spec (l : list Q) (x : Q) :
  In (fold_left Qmin l x) (x :: l) /\
  Forall (fun y => fold_left Qmin l x <= y) (x :: l).
Proof.
  revert x; induction l as [|y l IH]; intros x; simpl.
  - split; auto. repeat constructor. apply Qle_refl.
  - destruct (IH (Qmin x y)) as [Hin Hle]; split.
    + destruct Hin as [E | Hin]; auto.
      rewrite <- E; destruct (Qmin_cases x y) as [-> | ->]; auto.
    + inversion Hle as [|? ? Hm Hl]; subst.
      constructor; [|constructor]; auto.
      * eapply Qle_trans; [exact Hm | apply Q.le_min_l].
      * eapply Qle_trans; [exact Hm | apply Q.le_min_r].
Qed.

Lemma fold_max_spec (l : list Q) (x : Q) :
  In (fold_left Qmax l x) (x :: l) /\
  Forall (fun y => y <= fold_left Qmax l x) (x :: l).
Proof.
  revert x; induction l as [|y l IH]; intros x; simpl.
  - split; auto. repeat constructor. apply Qle_refl.
  - destruct (IH (Qmax x y)) as [Hin Hle]; split.
    + destruct Hin as [E | Hin]; auto.
      rewrite <- E; destruct (Qmax_cases x y) as [-> | ->]; auto.
    + inversion Hle as [|? ? Hm Hl]; subst.
      constructor; [|constructor]; auto.
      * eapply Qle_trans; [apply Q.le_max_l | exact Hm].
      * eapply Qle_trans; [apply Q.le_max_r | exact Hm].
Qed.

Lemma series_min_is_min (l : list Q) : is_min l (series_min l).
Proof. destruct l as [|x l]; simpl; [reflexivity | apply fold_min_spec]. Qed.

Lemma series_max_is_max (l : list Q) : is_max l (series_max l).
Proof. destruct l as [|x l]; simpl; [reflexivity | apply fold_max_spec]. Qed.

(** ** Joins on a key without repetition *)

Lemma flat_map_singleton {A B : Type} (f : A -> list B) (g : A -> B)
  (l : list A) :
  (forall a, In a l -> f a = [g a]) -> flat_map f l = map g l.
Proof.
  induction l as [|a l IH]; simpl; intros H; [reflexivity|].
  rewrite H, IH; auto.
Qed.

Section Keyed.

Context {A : Type} (f : A -> string).

Lemma filter_key_absent (l : list A) (s : string) :
  ~ In s (map f l) -> filter (fun c => String.eqb (f c) s) l = [].
Proof.
  induction l as [|c l IH]; simpl; intros Hn; [reflexivity|].
  destruct (String.eqb_spec (f c) s) as [E | _]; [tauto|].
  apply IH; tauto.
Qed.

Lemma filter_key_unique (l : list A) (a : A) :
  NoDup (map f l) -> In a l ->
  filter (fun c => String.eqb (f c) (f a)) l = [a].
Proof.
  induction l as [|c l IH]; simpl; intros Hnd Hin; [contradiction|].
  inversion Hnd as [|? ? Hc Hl]; subst.
  destruct Hin as [-> | Hin].
  - rewrite String.eqb_refl, filter_key_absent; auto.
  - destruct (String.eqb_spec (f c) (f a)) as [E | _]; auto.
    exfalso; apply Hc; rewrite E; now apply in_map.
Qed.

End Keyed.

(** ** [groupby] *)

Lemma groupby_keys (key : GradeRecord -> string) (df : DataFrame) :
  map fst (groupby key df) = sorted (unique (map key df)).
Proof. unfold groupby; rewrite map_map; simpl; apply map_id. Qed.

Lemma class_stats_keys (df : DataFrame) :
  map cs_Matiere (class_stats df) = sorted (unique (map Matiere df)).
Proof.
  unfold class_stats, groupby; rewrite !map_map; simpl; apply map_id.
Qed.

Lemma class_stats_rows (df : DataFrame) :
  class_stats df = map (class_stat_of df) (sorted (unique (map Matiere df))).
Proof. unfold class_stats, groupby; now rewrite map_map. Qed.

Lemma class_stats_lookup (df : DataFrame) (matiere : string) :
  filter (fun c => String.eqb (cs_Matiere c) matiere) (class_stats df) =
  if mem matiere (map Matiere df) then [class_stat_of df matiere] else [].
Proof.
  destruct (mem matiere (map Matiere df)) eqn:E.
  - apply mem_In in E.
    change matiere with (cs_Matiere (class_stat_of df matiere)) at 1.
    apply filter_key_unique.
    + rewrite class_stats_keys; apply sorted_NoDup, unique_NoDup.
    + rewrite class_stats_rows; apply in_map; now apply sorted_unique_In.
  - apply filter_key_absent.
    rewrite class_stats_keys, sorted_unique_In, <- mem_In, E; discriminate.
Qed.

Lemma subject_notes_absent (df : DataFrame) (matiere : string) :
  mem matiere (map Matiere df) = false -> subject_notes df matiere = [].
Proof.
  intros E; unfold subject_notes; rewrite filter_key_absent; auto.
  rewrite <- mem_In, E; discriminate.
Qed.

Lemma merge_left_class_stats (df student_df : DataFrame) :
  merge_left student_df (class_stats df) = map (joined_row df) student_df.
Proof.
  apply flat_map_singleton; intros r _.
  rewrite class_stats_lookup.
  destruct (mem (Matiere r) (map Matiere df)) eqn:E; cbn [map].
  - reflexivity.
  - unfold joined_row; now rewrite (subject_notes_absent _ _ E).
Qed.

(** ** Rounding *)

Lemma rint_near (x : Q) :
  inject_Z (rint x) - (1 # 2) <= x /\ x <= inject_Z (rint x) + (1 # 2).
Proof.
  unfold rint.
  pose proof (Qfloor_le x) as Hlo.
  pose proof (Qlt_floor x) as Hhi.
  rewrite inject_Z_plus in Hhi; change (inject_Z 1) with 1 in Hhi.
  destruct (Qcompare_spec (x - inject_Z (Qfloor x)) (1 # 2)) as [E | L | G].
  - destruct (Z.even (Qfloor x)); rewrite ?inject_Z_plus;
      change (inject_Z 1) with 1; split; lra.
  - split; lra.
  - rewrite inject_Z_plus; change (inject_Z 1) with 1; split; lra.
Qed.

(** ** The per-unit table *)

Lemma merge_inner_sub_keys (g : string -> option Q) (h : string -> nat)
  (keys ks : list string) :
  NoDup keys -> incl ks keys ->
  merge_inner (map (fun k => (k, g k)) ks) (map (fun k => (k, h k)) keys) =
  map (fun k => mkAverageRow k (g k) (h k)) ks.
Proof.
  intros Hnd; unfold merge_inner.
  assert (Hone : forall k, In k keys ->
            filter (fun c : string * nat => String.eqb (fst c) k)
                   (map (fun k => (k, h k)) keys) = [(k, h k)]).
  { intros k Hk.
    apply (filter_key_unique fst (map (fun k => (k, h k)) keys) (k, h k)).
    - rewrite map_map; cbn [fst]; now rewrite map_id.
    - now apply (in_map (fun k => (k, h k))). }
  induction ks as [|k ks IH]; intros Hin; [reflexivity|].
  cbn [map flat_map fst snd].
  rewrite Hone by (apply Hin; now left).
  cbn [map app fst snd]; f_equal.
  apply IH; intros k' Hk'; apply Hin; now right.
Qed.

Lemma merge_inner_same_keys (g : string -> option Q) (h : string -> nat)
  (keys : list string) :
  NoDup keys ->
  merge_inner (map (fun k => (k, g k)) keys) (map (fun k => (k, h k)) keys) =
  map (fun k => mkAverageRow k (g k) (h k)) keys.
Proof. intros Hnd; apply merge_inner_sub_keys; auto using incl_refl. Qed.

Lemma merged_rows (filtered_df : DataFrame) :
  merge_inner (average_grades_by_ue filtered_df) (ue_counts filtered_df) =
  map (average_row_of filtered_df) (sorted (unique (map UE filtered_df))).
Proof.
  unfold average_grades_by_ue, ue_counts, groupby; rewrite !map_map; cbn [fst snd].
  apply (merge_inner_same_keys
           (fun k => option_map (column_round fp 1)
                       (group_mean (map Note (unit_rows filtered_df k))))
           (fun k => nunique (map Matiere (unit_rows filtered_df k)))).
  apply sorted_NoDup, unique_NoDup.
Qed.

Lemma sort_values_UE_perm (rows : list AverageRow) :
  Permutation rows (sort_values_UE rows).
Proof. apply AverageRowSort.Permuted_sort. Qed.

Lemma sort_values_UE_ascending (rows : list AverageRow) :
  StronglySorted str_le (map av_UE (sort_values_UE rows)).
Proof.
  assert (H : StronglySorted (fun a b => is_true (AverageRowOrder.leb a b))
                (sort_values_UE rows)).
  { apply AverageRowSort.StronglySorted_sort.
    intros a b c; apply str_le_trans. }
  induction H as [|a l Hs IH Hall]; simpl; constructor; auto.
  rewrite Forall_map; exact Hall.
Qed.

(** The rows of the per-unit chart of a student's records. *)
Lemma average_rows_perm (sd : StudentData) :
  Permutation
    (map (average_row_of (student_records sd))
         (sorted (unique (map UE (student_records sd)))))
    (average_rows (update_average_grade_chart (Some sd))).
Proof.
  unfold update_average_grade_chart.
  destruct (student_records sd) as [|r l] eqn:E; [constructor|].
  cbn [empty average_rows average_grades].
  rewrite merged_rows; apply sort_values_UE_perm.
Qed.

Lemma average_rows_ascending (sd : StudentData) :
  StronglySorted str_le
    (map av_UE (average_rows (update_average_grade_chart (Some sd)))).
Proof.
  unfold update_average_grade_chart.
  destruct (empty (student_records sd)); [constructor|].
  apply sort_values_UE_ascending.
Qed.

Lemma average_rows_units (sd : StudentData) :
  Permutation
    (sorted (unique (map UE (student_records sd))))
    (map av_UE (average_rows (update_average_grade_chart (Some sd)))).
Proof.
  rewrite <- (average_rows_perm sd), map_map; cbn [average_row_of av_UE].
  now rewrite map_id.
Qed.


Lemma group_mean_some (l : list Q) :
  l <> [] -> group_mean l = Some (grouped_mean fp l).
Proof. destruct l; [congruence | reflexivity]. Qed.

Lemma unit_rows_In (df : DataFrame) (ue : string) (r : GradeRecord) :
  In r (unit_rows df ue) <-> In r df /\ UE r = ue.
Proof. unfold unit_rows; now rewrite filter_In, String.eqb_eq. Qed.

Lemma unit_mean_some (df : DataFrame) (ue : string) :
  In ue (map UE df) ->
  group_mean (map Note (unit_rows df ue)) =
  Some (grouped_mean fp (map Note (unit_rows df ue))).
Proof.
  intros H; apply in_map_iff in H; destruct H as [r [E Hr]].
  apply group_mean_some.
  assert (Hin : In r (unit_rows df ue)) by now apply unit_rows_In.
  destruct (unit_rows df ue); [contradiction | discriminate].
Qed.

(** Every row of the per-unit chart is the row of one of the student's
    units. *)
Lemma average_rows_Forall (sd : StudentData) (P : AverageRow -> Prop) :
  (forall ue, In ue (map UE (student_records sd)) ->
              P (average_row_of (student_records sd) ue)) ->
  Forall P (average_rows (update_average_grade_chart (Some sd))).
Proof.
  intros H; eapply Permutation_Forall; [apply average_rows_perm|].
  rewrite Forall_map, Forall_forall; intros ue Hue.
  apply H; now apply sorted_unique_In.
Qed.

(** * The claims *)

(** ** The three buckets *)

Lemma color_per_grade_bucket (note : Q) :
  color_per_grade note = grades_legend (bucket note).
Proof.
  unfold color_per_grade, bucket, Qltb, Qeq_bool, Qcompare.
  destruct (Z.compare_spec (Qnum note * QDen 10) (Qnum 10 * QDen note)) as [E | L | G];
    try reflexivity.
  - rewrite (proj2 (Z.eqb_eq _ _) E); reflexivity.
  - destruct (Z.eqb_spec (Qnum note * QDen 10) (Qnum 10 * QDen note)); [lia | reflexivity].
Qed.

Lemma bar_color_bucket (note : Q) :
  bar_color note = average_legend (bucket note).
Proof.
  unfold bar_color, bucket, Qltb, Qeq_bool, Qcompare.
  destruct (Z.compare_spec (Qnum note * QDen 10) (Qnum 10 * QDen note)) as [E | L | G];
    try reflexivity.
  - rewrite (proj2 (Z.eqb_eq _ _) E); reflexivity.
  - destruct (Z.eqb_spec (Qnum note * QDen 10) (Qnum 10 * QDen note)); [lia | reflexivity].
Qed.

(** C1. In the per-subject chart and in the per-unit chart alike, a value
    below 10 falls in the bucket "below passing", a value equal to 10 in
    "boundary" and a value above 10 in "passing"; the three buckets exclude
    each other, each chart shows them in three distinct colours, and both
    colour loops follow this one rule: the per-subject bars on the student's
    notes, the per-unit bars on the rounded unit means (which are always
    numbers). *)
Theorem trichotomy_contract :
  (forall note : Q,
      (note < 10 <-> bucket note = BelowPassing) /\
      (note == 10 <-> bucket note = Boundary) /\
      (10 < note <-> bucket note = Passing)) /\
  (forall note : Q,
      color_per_grade note = grades_legend (bucket note) /\
      bar_color note = average_legend (bucket note)) /\
  (forall b1 b2 : Bucket,
      (grades_legend b1 = grades_legend b2 -> b1 = b2) /\
      (average_legend b1 = average_legend b2 -> b1 = b2)) /\
  (forall df student_data selected_ue,
      comparison_colors (update_grades_graph df student_data selected_ue) =
      map (fun row => grades_legend (bucket (Note (pr_row row))))
          (comparison_rows (update_grades_graph df student_data selected_ue))) /\
  (forall student_data,
      Forall2 (fun row colour =>
                 exists mean, av_Note row = Some mean /\
                              colour = average_legend (bucket mean))
              (average_rows (update_average_grade_chart student_data))
              (average_colors (update_average_grade_chart student_data))).
Proof.
  split; [|split; [|split; [|split]]].
  - intros note; unfold bucket.
    rewrite Qlt_alt, Qeq_alt, (Qgt_alt note 10).
    destruct (note ?= 10); repeat split; congruence.
  - intros note; split; [apply color_per_grade_bucket | apply bar_color_bucket].
  - intros [] []; split; intros E; try reflexivity; discriminate E.
  - intros df [sd|] ue; [|reflexivity].
    unfold update_grades_graph.
    destruct (empty (filter_ue ue (student_records sd))); [reflexivity|].
    cbn [comparison_colors comparison_rows colors_per_grade plot_data].
    apply map_ext; intros row; apply color_per_grade_bucket.
  - intros [sd|]; [|constructor].
    assert (H : Forall (fun row => exists mean, av_Note row = Some mean)
                  (average_rows (update_average_grade_chart (Some sd)))).
    { apply average_rows_Forall; intros ue Hue.
      unfold average_row_of; cbn [av_Note].
      rewrite (unit_mean_some _ _ Hue); cbn [option_map]; eauto. }
    revert H; unfold update_average_grade_chart.
    destruct (empty (student_records sd)); [constructor|].
    cbn [average_rows average_colors average_grades bar_colors].
    induction 1 as [|row rows [mean Hmean] _ IH]; cbn [map]; constructor; auto.
    exists mean; split; auto.
    rewrite Hmean; apply bar_color_bucket.
Qed.

(** ** Resolving a student *)

Lemma student_mask_spec (prenom nom : string) (r : GradeRecord) :
  student_mask prenom nom r = true <-> Prenom r = prenom /\ Nom r = nom.
Proof. unfold student_mask; now rewrite andb_true_iff, !String.eqb_eq. Qed.

Lemma mask_any (prenom nom : string) (df : DataFrame) :
  existsb (student_mask prenom nom) df = true <->
  exists r, In r df /\ Prenom r = prenom /\ Nom r = nom.
Proof.
  rewrite existsb_exists; split; intros [r [Hr H]]; exists r; split; auto;
    now apply student_mask_spec.
Qed.

(** The callback on a name that is cut at its first space into a first
    name and a last name. *)
Lemma prepare_student_data_cut (df : DataFrame) (prenom nom : string) :
  ~ contains_space prenom ->
  fst (prepare_student_data df (Some (prenom ++ " " ++ nom)%string)) =
  if existsb (student_mask prenom nom) df
  then Some (mkStudentData
               (filter (student_mask prenom nom) df)
               (sorted (unique (map UE (filter (student_mask prenom nom) df))))
               (prenom ++ " " ++ nom)%string)
  else None.
Proof.
  intros Hp; unfold prepare_student_data.
  assert (Ht : truthy (Some (prenom ++ " " ++ nom)%string) = true)
    by (destruct prenom; reflexivity).
  rewrite Ht, split_at_first_space by exact Hp.
  destruct df as [|r df]; [reflexivity|].
  cbn [negb orb empty].
  now destruct (existsb (student_mask prenom nom) (r :: df)).
Qed.

Lemma prepare_student_data_no_space (df : DataFrame) (name : string) :
  ~ contains_space name ->
  fst (prepare_student_data df (Some name)) = None.
Proof.
  intros Hn; unfold prepare_student_data.
  rewrite split_no_space by exact Hn.
  now destruct (negb (truthy (Some name)) || empty df).
Qed.

(** C2, as the code has it. The callback returns no selection exactly when
    the name holds no space at all, or no row has its first-name field equal
    to the text before the FIRST space and its last-name field equal to all
    the text after it (further spaces belong to the last name). *)
Theorem resolve_null_iff (df : DataFrame) (displayName : string) :
  fst (prepare_student_data df (Some displayName)) = None <->
  (~ contains_space displayName \/
   forall prenom nom : string,
     displayName = (prenom ++ " " ++ nom)%string ->
     ~ contains_space prenom ->
     forall r, In r df -> ~ (Prenom r = prenom /\ Nom r = nom)).
Proof.
  destruct (first_space displayName) as [Hn | [a [b [-> Ha]]]].
  - split; [now left | intros _; now apply prepare_student_data_no_space].
  - rewrite prepare_student_data_cut by exact Ha.
    destruct (existsb (student_mask a b) df) eqn:E.
    + apply mask_any in E; destruct E as [r [Hr Hm]].
      split; [discriminate|].
      intros [Hn | Hall].
      * exfalso; apply Hn; now exists a, b.
      * exfalso; exact (Hall a b eq_refl Ha r Hr Hm).
    + split; [intros _ | reflexivity].
      right; intros prenom nom Ecut Hp r Hr Hm.
      destruct (first_space_unique _ _ _ _ Ecut Ha Hp) as [-> ->].
      assert (Hex : existsb (student_mask prenom nom) df = true)
        by (apply mask_any; eauto).
      congruence.
Qed.

(** C2, the claim as stated, fails: a name with two spaces does not split
    into exactly two space-separated tokens, yet it is resolved (first name
    "Jean", last name "Pierre Dupont"). *)
Lemma resolve_two_spaces_not_null :
  List.length (space_separated "Jean Pierre Dupont") = 3%nat /\
  fst (prepare_student_data
         [mkRecord "Pierre Dupont" "Jean" "Math" 12 "UE1"]
         (Some "Jean Pierre Dupont")) =
  Some (mkStudentData [mkRecord "Pierre Dupont" "Jean" "Math" 12 "UE1"]
                      ["UE1"] "Jean Pierre Dupont").
Proof. split; reflexivity. Qed.

(** C9. When some row has the first name and the last name the display name
    is cut into, the callback returns a selection that holds exactly the matching rows of the table in row order, the
    distinct units of those rows in strictly ascending order, and the display
    name unchanged. *)
Theorem resolve_selection (df : DataFrame) (prenom nom : string)
  (Hcut : ~ contains_space prenom)
  (Hrow : exists r, In r df /\ Prenom r = prenom /\ Nom r = nom) :
  exists sd : StudentData,
    fst (prepare_student_data df (Some (prenom ++ " " ++ nom)%string)) = Some sd /\
    student_records sd = filter (student_mask prenom nom) df /\
    (forall r, In r (student_records sd) <->
               In r df /\ Prenom r = prenom /\ Nom r = nom) /\
    StronglySorted str_lt (available_ues sd) /\
    (forall ue, In ue (available_ues sd) <->
                exists r, In r (student_records sd) /\ UE r = ue) /\
    student_name sd = (prenom ++ " " ++ nom)%string.
Proof.
  rewrite prepare_student_data_cut by exact Hcut.
  rewrite (proj2 (mask_any prenom nom df) Hrow).
  eexists; split; [reflexivity|]; cbn [student_records available_ues student_name].
  split; [reflexivity|]; split; [|split; [|split]].
  - intros r; now rewrite filter_In, student_mask_spec.
  - apply sorted_unique_strict.
  - intros ue; rewrite sorted_unique_In, in_map_iff.
    split; intros [r H]; exists r; tauto.
  - reflexivity.
Qed.

Lemma resolve_selection_witness :
  exists sd : StudentData,
    fst (prepare_student_data
           [mkRecord "Dupont" "Jean" "Math" 8 "UE1";
            mkRecord "Martin" "Alice" "Math" 15 "UE1";
            mkRecord "Dupont" "Jean" "Chemistry" 10 "UE2"]
           (Some ("Jean" ++ " " ++ "Dupont")%string)) = Some sd /\
    student_records sd =
      filter (student_mask "Jean" "Dupont")
        [mkRecord "Dupont" "Jean" "Math" 8 "UE1";
         mkRecord "Martin" "Alice" "Math" 15 "UE1";
         mkRecord "Dupont" "Jean" "Chemistry" 10 "UE2"] /\
    (forall r, In r (student_records sd) <->
               In r [mkRecord "Dupont" "Jean" "Math" 8 "UE1";
                     mkRecord "Martin" "Alice" "Math" 15 "UE1";
                     mkRecord "Dupont" "Jean" "Chemistry" 10 "UE2"] /\
               Prenom r = "Jean" /\ Nom r = "Dupont") /\
    StronglySorted str_lt (available_ues sd) /\
    (forall ue, In ue (available_ues sd) <->
                exists r, In r (student_records sd) /\ UE r = ue) /\
    student_name sd = ("Jean" ++ " " ++ "Dupont")%string.
Proof.
  apply (resolve_selection
           [mkRecord "Dupont" "Jean" "Math" 8 "UE1";
            mkRecord "Martin" "Alice" "Math" 15 "UE1";
            mkRecord "Dupont" "Jean" "Chemistry" 10 "UE2"]
           "Jean" "Dupont").
  - intros [[|c a] [b E]]; [discriminate|].
    injection E as _ E; destruct a as [|c1 a]; [discriminate|].
    injection E as _ E; destruct a as [|c2 a]; [discriminate|].
    injection E as _ E; destruct a as [|c3 a]; [discriminate|].
    injection E as _ E; destruct a; discriminate.
  - exists (mkRecord "Dupont" "Jean" "Math" 8 "UE1"); simpl; auto.
Defined.

(** ** The per-subject comparison *)

Lemma comparison_rows_joined (df : DataFrame) (sd : StudentData)
  (selected_ue : option string) :
  comparison_rows (update_grades_graph df (Some sd) selected_ue) =
  map (joined_row df) (filter_ue selected_ue (student_records sd)).
Proof.
  unfold update_grades_graph.
  destruct (filter_ue selected_ue (student_records sd)) as [|r l] eqn:E;
    [reflexivity|].
  cbn [empty comparison_rows plot_data]; apply merge_left_class_stats.
Qed.

Lemma filter_ue_incl (selected_ue : option string) (student_df : DataFrame)
  (r : GradeRecord) :
  In r (filter_ue selected_ue student_df) -> In r student_df.
Proof.
  unfold filter_ue; destruct (truthy selected_ue), selected_ue; auto.
  rewrite filter_In; tauto.
Qed.

(** C3, as the code has it. The per-subject comparison has one row per
    record of the selection that passes the unit filter, in the order of the
    records: as many rows as records, a subject that occurs in several
    records giving several rows. *)
Theorem comparison_row_per_record (df : DataFrame) (sd : StudentData)
  (selected_ue : option string) :
  map pr_row (comparison_rows (update_grades_graph df (Some sd) selected_ue)) =
    filter_ue selected_ue (student_records sd) /\
  List.length (comparison_rows (update_grades_graph df (Some sd) selected_ue)) =
    List.length (filter_ue selected_ue (student_records sd)).
Proof.
  rewrite comparison_rows_joined; split.
  - rewrite map_map; cbn [joined_row pr_row]; apply map_id.
  - apply length_map.
Qed.


Lemma prepare_student_data_records (df : DataFrame) (name : option string)
  (sd : StudentData) (r : GradeRecord) :
  fst (prepare_student_data df name) = Some sd ->
  In r (student_records sd) -> In r df.
Proof.
  unfold prepare_student_data; destruct name as [s|]; [|discriminate].
  destruct (negb (truthy (Some s)) || empty df); [discriminate|].
  destruct (split_space_1 s) as [|prenom [|nom [|? ?]]]; try discriminate.
  destruct (negb (existsb (student_mask prenom nom) df)); [discriminate|].
  cbn [fst]; intros E; injection E as <-; cbn [student_records].
  rewrite filter_In; tauto.
Qed.

(** C10. When the selection comes from the table the class statistics are
    grouped from, every row of the comparison has its three class
    statistics (none is missing), and the student's note lies between the
    class minimum and the class maximum. *)
Theorem class_range_brackets_note (df : DataFrame) (selected_student : option string)
  (sd : StudentData) (selected_ue : option string)
  (Hsel : fst (prepare_student_data df selected_student) = Some sd) :
  Forall (fun row =>
            exists mean lo hi : Q,
              Moyenne_Classe row = Some mean /\
              Min_Classe row = Some lo /\
              Max_Classe row = Some hi /\
              lo <= Note (pr_row row) /\ Note (pr_row row) <= hi)
         (comparison_rows (update_grades_graph df (Some sd) selected_ue)).
Proof.
  rewrite comparison_rows_joined, Forall_map, Forall_forall; intros r Hr.
  apply filter_ue_incl in Hr.
  apply (prepare_student_data_records _ _ _ _ Hsel) in Hr.
  assert (Hnote : In (Note r) (subject_notes df (Matiere r))).
  { unfold subject_notes; apply in_map, filter_In; split; auto.
    apply String.eqb_refl. }
  cbn [joined_row pr_row Moyenne_Classe Min_Classe Max_Classe].
  pose proof (series_min_is_min (subject_notes df (Matiere r))) as Hmin.
  pose proof (series_max_is_max (subject_notes df (Matiere r))) as Hmax.
  destruct (subject_notes df (Matiere r)) as [|x l] eqn:E; [contradiction|].
  cbn [group_mean series_min series_max] in *.
  destruct Hmin as [_ Hmin], Hmax as [_ Hmax].
  rewrite Forall_forall in Hmin, Hmax.
  do 3 eexists; repeat split; auto.
Qed.

(** ** The per-unit averages *)

Lemma nunique_distinct_count (l : list string) : distinct_count l (nunique l).
Proof.
  exists (unique l); split; [apply unique_NoDup|].
  split; [apply unique_In | reflexivity].
Qed.





(** ** The overall statistics *)



(** ** The loader *)

Lemma issubset_spec (required cols : list string) :
  issubset required cols = true <-> forall c, In c required -> In c cols.
Proof.
  unfold issubset; rewrite forallb_forall; split; intros H c Hc;
    apply mem_In; auto.
Qed.

(** C7. The loader returns a frame and its diagnostics in every case. A
    path that does not exist, a read that raises, or a parsed sheet that
    lacks one of the five required columns gives the empty frame and one
    diagnostic line; a sheet that parses with the five required columns
    among its columns, whatever other columns it has, is returned as parsed,
    without a diagnostic. *)
Theorem load_data_outcomes (fs : FileSystem) (file_path : string) :
  (path_exists fs file_path = false ->
     exists line, load_data fs file_path = (empty_frame, [line])) /\
  (forall e, read_excel fs file_path = Raises e ->
     exists line, load_data fs file_path = (empty_frame, [line])) /\
  (forall sheet column,
     read_excel fs file_path = Parsed sheet ->
     In column ["Nom"; "Prenom"; "Matière"; "Note"; "UE"]%string ->
     ~ In column (columns sheet) ->
     exists line, load_data fs file_path = (empty_frame, [line])) /\
  (forall sheet,
     path_exists fs file_path = true ->
     read_excel fs file_path = Parsed sheet ->
     (forall column,
        In column ["Nom"; "Prenom"; "Matière"; "Note"; "UE"]%string ->
        In column (columns sheet)) ->
     load_data fs file_path = (sheet, [])).
Proof.
  unfold load_data; split; [|split; [|split]].
  - intros ->; eexists; reflexivity.
  - intros e ->; destruct (path_exists fs file_path); eexists; reflexivity.
  - intros sheet column -> Hreq Hmiss.
    destruct (path_exists fs file_path); cbn [negb]; [|eexists; reflexivity].
    destruct (issubset required_columns (columns sheet)) eqn:E;
      [|eexists; reflexivity].
    exfalso; apply Hmiss.
    exact (proj1 (issubset_spec required_columns (columns sheet)) E column Hreq).
  - intros sheet -> -> Hall; cbn [negb].
    now rewrite (proj2 (issubset_spec required_columns (columns sheet)) Hall).
Qed.

(** A sheet with the five required columns and one more loads as it is. *)
Example load_data_extra_column :
  let sheet :=
    mkSheet ["Nom"; "Prenom"; "Groupe"; "Matière"; "Note"; "UE"]
            [[CellText "Dupont"; CellText "Jean"; CellText "A";
              CellText "Math"; CellNumber 8; CellText "UE1"]] in
  load_data (mkFS (fun _ => true) (fun _ => Parsed sheet)) "data_tdb.xlsx" =
  (sheet, []).
Proof. reflexivity. Qed.

(** A sheet without the column 'UE' loads as the empty frame. *)
Example load_data_missing_column :
  load_data
    (mkFS (fun _ => true)
          (fun _ => Parsed (mkSheet ["Nom"; "Prenom"; "Matière"; "Note"] [])))
    "data_tdb.xlsx" =
  (empty_frame, ["Erreur : Colonnes manquantes dans le fichier Excel."]).
Proof. reflexivity. Qed.

(** ** The student index *)


(** The order is that of the rendered string, not of the last name and not
    of the rows. *)
Example student_index_order :
  map value
    (student_options
       [mkRecord "Adam" "Zoe" "Math" 12 "UE1";
        mkRecord "Martin" "Alice" "Math" 15 "UE1";
        mkRecord "Adam" "Zoe" "Physics" 9 "UE1"]) =
  ["Alice Martin"; "Zoe Adam"]%string.
Proof. reflexivity. Qed.

(** * Further properties of the callbacks *)

(** ** Helpers: sorted lists *)

Lemma str_le_antisym (a b : string) : str_le a b -> str_le b a -> a = b.
Proof. apply String.leb_antisym. Qed.

(** Two ascending lists with the same elements are the same list. *)
Lemma ascending_perm_eq (l1 l2 : list string) :
  StronglySorted str_le l1 -> StronglySorted str_le l2 ->
  Permutation l1 l2 -> l1 = l2.
Proof.
  intros H1; revert l2; induction H1 as [|a l1 Hs1 IH Ha]; intros l2 H2 Hp.
  - apply Permutation_nil in Hp; now subst.
  - destruct H2 as [|b l2 Hs2 Hb].
    + symmetry in Hp; apply Permutation_nil in Hp; discriminate.
    + assert (E : a = b).
      { rewrite Forall_forall in Ha, Hb.
        assert (Hab : In a (b :: l2)) by (apply (Permutation_in _ Hp); now left).
        assert (Hba : In b (a :: l1))
          by (apply (Permutation_in _ (Permutation_sym Hp)); now left).
        destruct Hab as [-> | Hab]; [reflexivity|].
        destruct Hba as [-> | Hba]; [reflexivity|].
        apply str_le_antisym; auto. }
      subst b; f_equal; apply IH; auto.
      eapply Permutation_cons_inv; exact Hp.
Qed.

(** Sorting an ascending list changes nothing. *)
Lemma sorted_ascending_id (l : list string) :
  StronglySorted str_le l -> sorted l = l.
Proof.
  intros H; apply ascending_perm_eq; auto using sorted_ascending.
  symmetry; apply sorted_perm.
Qed.

Lemma strict_ascending (l : list string) :
  StronglySorted str_lt l -> StronglySorted str_le l.
Proof.
  induction 1 as [|a l Hs IH Ha]; constructor; auto.
  eapply Forall_impl; [|exact Ha].
  intros b Hb; apply str_le_cases; now left.
Qed.

(** ** The loader, read from its result *)

(** X1. Whatever the file system holds, the loader ends in one of two
    ways: silently, with the sheet [pd.read_excel] parsed from an existing
    path, all five required columns among its columns; or with the empty
    frame and exactly one diagnostic line. *)
Theorem load_data_result (fs : FileSystem) (file_path : string) :
  (snd (load_data fs file_path) = [] /\
   path_exists fs file_path = true /\
   read_excel fs file_path = Parsed (fst (load_data fs file_path)) /\
   forall column, In column required_columns ->
                  In column (columns (fst (load_data fs file_path)))) \/
  (fst (load_data fs file_path) = empty_frame /\
   exists line, snd (load_data fs file_path) = [line]).
Proof.
  unfold load_data.
  destruct (path_exists fs file_path); cbn [negb];
    [|right; split; [reflexivity | eexists; reflexivity]].
  destruct (read_excel fs file_path) as [e | sheet];
    [right; split; [reflexivity | eexists; reflexivity]|].
  destruct (issubset required_columns (columns sheet)) eqn:E; cbn [negb].
  - left; cbn [fst snd]; repeat split.
    now apply issubset_spec.
  - right; split; [reflexivity | eexists; reflexivity].
Qed.

(** ** [split(' ', 1)], read as a round trip *)

(** X2. Cutting a string at its first space loses nothing: joining the
    parts with a space gives the string back. There are two parts exactly
    when the string contains a space and one part otherwise, and the first
    part never contains a space. *)
Theorem split_space_1_join (s : string) :
  String.concat " " (split_space_1 s) = s /\
  (contains_space s -> List.length (split_space_1 s) = 2%nat) /\
  (~ contains_space s -> split_space_1 s = [s]) /\
  Forall (fun first => ~ contains_space first) (firstn 1 (split_space_1 s)).
Proof.
  destruct (first_space s) as [Hn | [a [b [-> Ha]]]].
  - rewrite (split_no_space s Hn); cbn [String.concat firstn].
    repeat split; auto; tauto.
  - rewrite (split_at_first_space a b Ha); cbn [String.concat firstn List.length].
    repeat split; auto.
    intros Hn; exfalso; apply Hn; now exists a, b.
Qed.

(** ** The selection callback, read from its result *)

Lemma truthy_cut (a b : string) : truthy (Some (a ++ " " ++ b)%string) = true.
Proof. destruct a; reflexivity. Qed.

(** The whole result of the callback, by cases on the name and the table. *)
Lemma prepare_student_data_cases (df : DataFrame) (name : string) :
  prepare_student_data df (Some name) =
  if negb (truthy (Some name)) || empty df then (None, [])
  else
    match split_space_1 name with
    | [prenom; nom] =>
        if existsb (student_mask prenom nom) df then
          (Some (mkStudentData
                   (filter (student_mask prenom nom) df)
                   (sorted (unique (map UE (filter (student_mask prenom nom) df))))
                   name), [])
        else
          (None, [("Aucune donnée trouvée pour l'étudiant: " ++ name)%string])
    | _ => (None, [("Format de nom d'étudiant incorrect: " ++ name)%string])
    end.
Proof.
  unfold prepare_student_data.
  destruct (negb (truthy (Some name)) || empty df); [reflexivity|].
  destruct (split_space_1 name) as [|prenom [|nom [|? ?]]]; try reflexivity.
  now destruct (existsb (student_mask prenom nom) df).
Qed.

(** A selection is always made of a name cut at its first space and of the
    rows that match the two parts. *)
Lemma prepare_student_data_some (df : DataFrame) (selected : option string)
  (sd : StudentData) :
  fst (prepare_student_data df selected) = Some sd ->
  exists prenom nom : string,
    selected = Some (prenom ++ " " ++ nom)%string /\
    ~ contains_space prenom /\
    existsb (student_mask prenom nom) df = true /\
    sd = mkStudentData
           (filter (student_mask prenom nom) df)
           (sorted (unique (map UE (filter (student_mask prenom nom) df))))
           (prenom ++ " " ++ nom)%string.
Proof.
  destruct selected as [name|]; [|discriminate].
  destruct (first_space name) as [Hn | [a [b [-> Ha]]]].
  - rewrite (prepare_student_data_no_space df name Hn); discriminate.
  - rewrite (prepare_student_data_cut df a b Ha).
    destruct (existsb (student_mask a b) df) eqn:E; [|discriminate].
    intros H; injection H as <-; exists a, b; auto.
Qed.

(** X3. The diagnostics of the selection callback tell its four outcomes
    apart. No selection, the empty name or the empty table: no selection
    and no message. A name without any space on a non-empty table: the
    "Format de nom" message. A name that is cut but matches no row: the
    "Aucune donnée" message. A selection: no message. *)
Theorem prepare_student_data_diagnostics (df : DataFrame) :
  (forall selected,
      truthy selected = false \/ df = [] ->
      prepare_student_data df selected = (None, [])) /\
  (forall name,
      df <> [] -> name <> EmptyString -> ~ contains_space name ->
      prepare_student_data df (Some name) =
        (None, [("Format de nom d'étudiant incorrect: " ++ name)%string])) /\
  (forall prenom nom,
      df <> [] -> ~ contains_space prenom ->
      (forall r, In r df -> ~ (Prenom r = prenom /\ Nom r = nom)) ->
      prepare_student_data df (Some (prenom ++ " " ++ nom)%string) =
        (None, [("Aucune donnée trouvée pour l'étudiant: "
                   ++ (prenom ++ " " ++ nom))%string])) /\
  (forall selected sd log,
      prepare_student_data df selected = (Some sd, log) -> log = []).
Proof.
  split; [|split; [|split]].
  - intros [name|] H; [|reflexivity].
    rewrite prepare_student_data_cases.
    destruct H as [-> | ->]; [reflexivity|].
    now rewrite orb_true_r.
  - intros name Hdf Hne Hn; rewrite prepare_student_data_cases.
    destruct df as [|r df]; [congruence|].
    destruct name as [|c name]; [congruence|].
    cbn [truthy negb orb empty].
    now rewrite (split_no_space _ Hn).
  - intros prenom nom Hdf Hp Hnone; rewrite prepare_student_data_cases.
    destruct df as [|r0 df]; [congruence|].
    rewrite truthy_cut; cbn [negb orb empty].
    rewrite (split_at_first_space _ _ Hp).
    destruct (existsb (student_mask prenom nom) (r0 :: df)) eqn:E; [|reflexivity].
    apply mask_any in E; destruct E as [r [Hr Hm]].
    exfalso; exact (Hnone r Hr Hm).
  - intros [name|] sd log; [|discriminate].
    rewrite prepare_student_data_cases.
    destruct (negb (truthy (Some name)) || empty df); [discriminate|].
    destruct (split_space_1 name) as [|prenom [|nom [|? ?]]]; try discriminate.
    destruct (existsb (student_mask prenom nom) df); [|discriminate].
    intros H; now injection H.
Qed.

(** A decision procedure for [contains_space]. *)
Fixpoint has_space (s : string) : bool :=
  match s with
  | EmptyString => false
  | String c s' => Ascii.eqb c " "%char || has_space s'
  end.

Lemma has_space_spec (s : string) : has_space s = true <-> contains_space s.
Proof.
  induction s as [|c s IH]; simpl.
  - split; [discriminate | intros H; destruct (no_space_empty H)].
  - rewrite contains_space_cons, orb_true_iff, IH.
    destruct (Ascii.eqb_spec c " "%char); intuition congruence.
Qed.

Lemma no_space_decide (s : string) : has_space s = false -> ~ contains_space s.
Proof. intros E H; apply has_space_spec in H; congruence. Qed.

Lemma unique_nonempty (l : list string) : l <> [] -> unique l <> [].
Proof.
  destruct l as [|x l]; [congruence|]; intros _ E.
  assert (H : In x (unique (x :: l))) by (apply unique_In; now left).
  rewrite E in H; exact H.
Qed.

Lemma sorted_nonempty (l : list string) : l <> [] -> sorted l <> [].
Proof.
  intros H E; apply H.
  apply Permutation_nil; rewrite <- E; symmetry; apply sorted_perm.
Qed.

Lemma mask_filter_nonempty (df : DataFrame) (prenom nom : string) :
  existsb (student_mask prenom nom) df = true ->
  filter (student_mask prenom nom) df <> [].
Proof.
  intros Hany; apply mask_any in Hany; destruct Hany as [r [Hr Hm]].
  assert (Hin : In r (filter (student_mask prenom nom) df))
    by (apply filter_In; split; auto; now apply student_mask_spec).
  intros E; rewrite E in Hin; exact Hin.
Qed.

Lemma selection_records_nonempty (df : DataFrame) (selected : option string)
  (sd : StudentData) :
  fst (prepare_student_data df selected) = Some sd -> student_records sd <> [].
Proof.
  intros Hsel.
  destruct (prepare_student_data_some _ _ _ Hsel) as [a [b [_ [_ [Hany ->]]]]].
  now apply mask_filter_nonempty.
Qed.

(** X4. A selection is never hollow. It echoes the dropdown value; it has
    at least one record and at least one unit; its name is a first name
    without space, a space and a last name, and every record is a row of the
    table with exactly that first name and that last name; and the unit of
    every record is among its available units. *)
Theorem selection_invariant (df : DataFrame) (selected : option string)
  (sd : StudentData)
  (Hsel : fst (prepare_student_data df selected) = Some sd) :
  selected = Some (student_name sd) /\
  student_records sd <> [] /\
  available_ues sd <> [] /\
  (exists prenom nom : string,
      student_name sd = (prenom ++ " " ++ nom)%string /\
      ~ contains_space prenom /\
      Forall (fun r => In r df /\ Prenom r = prenom /\ Nom r = nom)
             (student_records sd)) /\
  Forall (fun r => In (UE r) (available_ues sd)) (student_records sd).
Proof.
  destruct (prepare_student_data_some _ _ _ Hsel) as [a [b [-> [Ha [Hany ->]]]]].
  cbn [student_name student_records available_ues].
  pose proof (mask_filter_nonempty df a b Hany) as Hne.
  split; [reflexivity|]; split; [exact Hne|]; split; [|split].
  - apply sorted_nonempty, unique_nonempty.
    destruct (filter (student_mask a b) df); [congruence | discriminate].
  - exists a, b; split; [reflexivity|]; split; [exact Ha|].
    rewrite Forall_forall; intros r Hr.
    apply filter_In in Hr; destruct Hr as [Hr Hm].
    apply student_mask_spec in Hm; tauto.
  - rewrite Forall_forall; intros r Hr.
    apply sorted_unique_In; now apply in_map.
Qed.

Lemma selection_invariant_witness :
  Some "Jean Dupont"%string =
    Some (student_name (mkStudentData retake_table ["UE1"%string] "Jean Dupont")) /\
  student_records (mkStudentData retake_table ["UE1"%string] "Jean Dupont") <> [] /\
  available_ues (mkStudentData retake_table ["UE1"%string] "Jean Dupont") <> [] /\
  (exists prenom nom : string,
      student_name (mkStudentData retake_table ["UE1"%string] "Jean Dupont") =
        (prenom ++ " " ++ nom)%string /\
      ~ contains_space prenom /\
      Forall (fun r => In r retake_table /\ Prenom r = prenom /\ Nom r = nom)
             (student_records
                (mkStudentData retake_table ["UE1"%string] "Jean Dupont"))) /\
  Forall (fun r =>
            In (UE r)
               (available_ues
                  (mkStudentData retake_table ["UE1"%string] "Jean Dupont")))
         (student_records (mkStudentData retake_table ["UE1"%string] "Jean Dupont")).
Proof.
  apply (selection_invariant retake_table (Some "Jean Dupont"%string)).
  reflexivity.
Defined.

(** ** The student dropdown and the selection callback together *)

Lemma full_name_key (r r' : GradeRecord) :
  student_key r = student_key r' -> full_name r = full_name r'.
Proof.
  unfold student_key, full_name; intros E; injection E as -> ->; reflexivity.
Qed.

Lemma unique_students_In (df : DataFrame) (name : string) :
  In name (unique_students df) <-> exists r, In r df /\ full_name r = name.
Proof.
  unfold unique_students; rewrite sorted_In, in_map_iff; split.
  - intros [r' [E Hr']].
    assert (Hk : In (student_key r') (map student_key df))
      by (apply drop_duplicates_keys; now apply in_map).
    apply in_map_iff in Hk; destruct Hk as [r [Ek Hr]].
    exists r; split; auto.
    rewrite <- E; now apply full_name_key.
  - intros [r [Hr E]].
    assert (Hk : In (student_key r) (map student_key (drop_duplicates df)))
      by (apply drop_duplicates_keys; now apply in_map).
    apply in_map_iff in Hk; destruct Hk as [r' [Ek Hr']].
    exists r'; split; auto.
    rewrite <- E; now apply full_name_key.
Qed.

(** X5. The student dropdown offers exactly the rendered names of the rows
    of the table: every option is the "Prenom Nom" of some row, and every
    row's "Prenom Nom" is an option. *)
Theorem student_options_members (df : DataFrame) (name : string) :
  In name (map value (student_options df)) <->
  exists r, In r df /\ full_name r = name.
Proof.
  rewrite student_options_values; split.
  - intros H; apply unique_students_In in H.
    destruct H as [r [Hr E]]; exists r; auto.
  - intros [r [Hr E]]; apply unique_students_In; exists r; auto.
Qed.

Lemma prepare_student_data_full_name (df : DataFrame) (r : GradeRecord) :
  In r df -> ~ contains_space (Prenom r) ->
  prepare_student_data df (Some (full_name r)) =
  (Some (mkStudentData
           (filter (student_mask (Prenom r) (Nom r)) df)
           (sorted (unique (map UE (filter (student_mask (Prenom r) (Nom r)) df))))
           (full_name r)), []).
Proof.
  intros Hr Hp; rewrite prepare_student_data_cases; unfold full_name.
  rewrite truthy_cut, (split_at_first_space _ _ Hp).
  destruct df as [|r0 df]; [contradiction|]; cbn [negb orb empty].
  assert (Hany : existsb (student_mask (Prenom r) (Nom r)) (r0 :: df) = true)
    by (apply mask_any; eauto).
  now rewrite Hany.
Qed.

(** X6. Selecting the option of a student whose first name has no space
    gives that student's rows: the option is in the dropdown, the callback
    returns a selection without diagnostic, and its records are exactly the
    rows of the table with the student's first and last name, the student's
    own row among them. *)
Theorem option_resolves (df : DataFrame) (r : GradeRecord)
  (Hr : In r df) (Hp : ~ contains_space (Prenom r)) :
  In (full_name r) (map value (student_options df)) /\
  exists sd : StudentData,
    prepare_student_data df (Some (full_name r)) = (Some sd, []) /\
    student_records sd = filter (student_mask (Prenom r) (Nom r)) df /\
    In r (student_records sd) /\
    student_name sd = full_name r.
Proof.
  split; [rewrite student_options_values; apply unique_students_In; eauto|].
  rewrite (prepare_student_data_full_name df r Hr Hp).
  eexists; split; [reflexivity|].
  cbn [student_records student_name]; repeat split.
  apply filter_In; split; auto; now apply student_mask_spec.
Qed.

Lemma option_resolves_witness :
  In (full_name (mkRecord "Dupont" "Jean" "Math" 8 "UE1"))
     (map value (student_options retake_table)) /\
  exists sd : StudentData,
    prepare_student_data retake_table
      (Some (full_name (mkRecord "Dupont" "Jean" "Math" 8 "UE1"))) =
      (Some sd, []) /\
    student_records sd =
      filter (student_mask (Prenom (mkRecord "Dupont" "Jean" "Math" 8 "UE1"))
                           (Nom (mkRecord "Dupont" "Jean" "Math" 8 "UE1")))
             retake_table /\
    In (mkRecord "Dupont" "Jean" "Math" 8 "UE1") (student_records sd) /\
    student_name sd = full_name (mkRecord "Dupont" "Jean" "Math" 8 "UE1").
Proof.
  apply (option_resolves retake_table (mkRecord "Dupont" "Jean" "Math" 8 "UE1")).
  - simpl; auto.
  - apply no_space_decide; reflexivity.
Defined.

(** X7. A student whose first name contains a space is offered in the
    dropdown but cannot be selected: whatever the dropdown value, no record
    of the selection has a first name with a space, so selecting that
    student's own option gives no selection or other rows. *)
Theorem spaced_first_name_unselectable (df : DataFrame) (r : GradeRecord)
  (selected : option string) (sd : StudentData)
  (Hr : In r df) (Hp : contains_space (Prenom r))
  (Hsel : fst (prepare_student_data df selected) = Some sd) :
  In (full_name r) (map value (student_options df)) /\
  Forall (fun r' => ~ contains_space (Prenom r') /\ r' <> r)
         (student_records sd).
Proof.
  split; [rewrite student_options_values; apply unique_students_In; eauto|].
  destruct (prepare_student_data_some _ _ _ Hsel) as [a [b [_ [Ha [_ ->]]]]].
  cbn [student_records]; rewrite Forall_forall; intros r' Hr'.
  apply filter_In in Hr'; destruct Hr' as [_ Hm].
  apply student_mask_spec in Hm; destruct Hm as [Ep _]; split.
  - now rewrite Ep.
  - intros ->; apply Ha; now rewrite <- Ep.
Qed.

Lemma spaced_first_name_unselectable_witness :
  In (full_name (mkRecord "Dupont" "Jean Pierre" "Math" 8 "UE1"))
     (map value
        (student_options
           [mkRecord "Dupont" "Jean Pierre" "Math" 8 "UE1";
            mkRecord "Pierre Dupont" "Jean" "Math" 12 "UE1"])) /\
  Forall (fun r' => ~ contains_space (Prenom r') /\
                    r' <> mkRecord "Dupont" "Jean Pierre" "Math" 8 "UE1")
         (student_records
            (mkStudentData [mkRecord "Pierre Dupont" "Jean" "Math" 12 "UE1"]
                           ["UE1"%string] "Jean Pierre Dupont")).
Proof.
  apply (spaced_first_name_unselectable
           [mkRecord "Dupont" "Jean Pierre" "Math" 8 "UE1";
            mkRecord "Pierre Dupont" "Jean" "Math" 12 "UE1"]
           (mkRecord "Dupont" "Jean Pierre" "Math" 8 "UE1")
           (Some "Jean Pierre Dupont"%string)).
  - simpl; auto.
  - apply has_space_spec; reflexivity.
  - reflexivity.
Defined.

(** ** The unit dropdown *)

Lemma ue_dropdown_values (df : DataFrame) (selected : option string)
  (sd : StudentData) :
  fst (prepare_student_data df selected) = Some sd ->
  map value (fst (update_ue_dropdown (Some sd))) = available_ues sd.
Proof.
  intros E; destruct (prepare_student_data_some _ _ _ E) as [a [b [_ [_ [_ ->]]]]].
  cbn [update_ue_dropdown fst available_ues].
  rewrite map_map; cbn [value]; rewrite map_id.
  apply sorted_ascending_id, strict_ascending, sorted_unique_strict.
Qed.

(** X8. After a student is selected, the unit dropdown offers exactly the
    available units of the selection, in the same strictly ascending order
    (sorting them again changes nothing), each option's label being its
    value, and its value is reset to none; without a selection it offers
    nothing. *)
Theorem ue_dropdown_options (df : DataFrame) (selected : option string) :
  map value (fst (update_ue_dropdown (fst (prepare_student_data df selected)))) =
    match fst (prepare_student_data df selected) with
    | Some sd => available_ues sd
    | None => []
    end /\
  map label (fst (update_ue_dropdown (fst (prepare_student_data df selected)))) =
    map value (fst (update_ue_dropdown (fst (prepare_student_data df selected)))) /\
  StronglySorted str_lt
    (map value (fst (update_ue_dropdown (fst (prepare_student_data df selected))))) /\
  snd (update_ue_dropdown (fst (prepare_student_data df selected))) = None.
Proof.
  destruct (fst (prepare_student_data df selected)) as [sd|] eqn:E;
    [|repeat split; constructor].
  pose proof (ue_dropdown_values df selected sd E) as Hvalues.
  split; [exact Hvalues|]; split; [|split].
  - cbn [update_ue_dropdown fst]; now rewrite !map_map.
  - rewrite Hvalues.
    destruct (prepare_student_data_some _ _ _ E) as [a [b [_ [_ [_ ->]]]]].
    apply sorted_unique_strict.
  - reflexivity.
Qed.

(** ** The per-subject chart *)

Lemma truthy_nonempty (ue : string) :
  ue <> EmptyString -> truthy (Some ue) = true.
Proof. destruct ue; [congruence | reflexivity]. Qed.

Lemma filter_map_commute {A B : Type} (f : B -> bool) (g : A -> B)
  (l : list A) :
  filter f (map g l) = map g (filter (fun a => f (g a)) l).
Proof.
  induction l as [|a l IH]; simpl; [reflexivity|].
  destruct (f (g a)); simpl; now rewrite IH.
Qed.

(** X9. Every non-empty unit the unit dropdown offers gives a chart, never
    the placeholder: for a selection made from the table and one of its
    available units, the per-subject chart is a figure with at least one
    row, all of whose rows are records of that unit. *)
Theorem offered_unit_has_rows (df : DataFrame) (selected : option string)
  (sd : StudentData) (ue : string)
  (Hsel : fst (prepare_student_data df selected) = Some sd)
  (Hue : In ue (available_ues sd)) (Hne : ue <> EmptyString) :
  exists fig : GradesFigure,
    update_grades_graph df (Some sd) (Some ue) = GradesFig fig /\
    plot_data fig <> [] /\
    Forall (fun row => UE (pr_row row) = ue /\ In (pr_row row) (student_records sd))
           (plot_data fig).
Proof.
  destruct (prepare_student_data_some _ _ _ Hsel) as [a [b [_ [_ [_ ->]]]]].
  cbn [available_ues student_records] in *.
  apply sorted_unique_In, in_map_iff in Hue; destruct Hue as [r [Er Hr]].
  pose proof (comparison_rows_joined df
                (mkStudentData (filter (student_mask a b) df)
                   (sorted (unique (map UE (filter (student_mask a b) df))))
                   (a ++ " " ++ b)%string) (Some ue)) as Hrows.
  unfold update_grades_graph in *.
  cbn [student_records] in *.
  unfold filter_ue in *; rewrite (truthy_nonempty ue Hne) in *.
  set (rows := filter (fun r0 => String.eqb (UE r0) ue)
                      (filter (student_mask a b) df)) in *.
  assert (Hin : In r rows)
    by (apply filter_In; split; auto; now apply String.eqb_eq).
  destruct rows as [|r0 rows'] eqn:Erows; [contradiction|].
  cbn [empty] in *; eexists; split; [reflexivity|].
  cbn [comparison_rows plot_data] in *; rewrite Hrows; split; [discriminate|].
  rewrite Forall_map, Forall_forall; intros r1 Hr1; cbn [joined_row pr_row].
  rewrite <- Erows in Hr1; subst rows.
  apply filter_In in Hr1; destruct Hr1 as [Hr1 Eu].
  apply String.eqb_eq in Eu; auto.
Qed.

(** X10. The unit filter only selects rows: the comparison under a
    non-empty unit filter is the comparison without filter restricted to the
    rows of that unit, in the same order and with the same class statistics;
    the empty string as filter is no filter. *)
Theorem unit_filter_selects_rows (df : DataFrame) (sd : StudentData)
  (ue : string) :
  comparison_rows (update_grades_graph df (Some sd) (Some ue)) =
  match ue with
  | EmptyString => comparison_rows (update_grades_graph df (Some sd) None)
  | _ => filter (fun row => String.eqb (UE (pr_row row)) ue)
                (comparison_rows (update_grades_graph df (Some sd) None))
  end.
Proof.
  rewrite !comparison_rows_joined.
  destruct ue as [|c ue]; [reflexivity|].
  unfold filter_ue; cbn [truthy].
  now rewrite filter_map_commute.
Qed.

(** X11. A subject of the selection that no row of the table has is kept,
    with empty class statistics: in every row of the comparison the class
    mean, minimum and maximum are missing together, and they are missing
    exactly when the row's subject occurs nowhere in the table. *)
Theorem unmatched_subject_null_filled (df : DataFrame)
  (student_data : option StudentData) (selected_ue : option string) :
  Forall (fun row =>
            (Moyenne_Classe row = None <->
             ~ In (Matiere (pr_row row)) (map Matiere df)) /\
            (Moyenne_Classe row = None <-> Min_Classe row = None) /\
            (Moyenne_Classe row = None <-> Max_Classe row = None))
         (comparison_rows (update_grades_graph df student_data selected_ue)).
Proof.
  destruct student_data as [sd|]; [|constructor].
  rewrite comparison_rows_joined, Forall_map, Forall_forall; intros r _.
  cbn [joined_row pr_row Moyenne_Classe Min_Classe Max_Classe].
  destruct (mem (Matiere r) (map Matiere df)) eqn:E.
  - assert (Hin : In (Matiere r) (map Matiere df)) by now apply mem_In.
    apply in_map_iff in Hin; destruct Hin as [r' [Em Hr']].
    assert (Hn : In (Note r') (subject_notes df (Matiere r))).
    { unfold subject_notes; apply in_map, filter_In; split; auto.
      now apply String.eqb_eq. }
    destruct (subject_notes df (Matiere r)) as [|x l]; [contradiction|].
    cbn [group_mean series_min series_max].
    assert (Hm : In (Matiere r) (map Matiere df))
      by (rewrite <- Em; now apply in_map).
    repeat split; try discriminate; intros H; try discriminate; tauto.
  - rewrite (subject_notes_absent _ _ E); cbn [group_mean series_min series_max].
    assert (Hm : ~ In (Matiere r) (map Matiere df))
      by (rewrite <- mem_In, E; discriminate).
    repeat split; auto.
Qed.

Lemma nunique_le_length (l : list string) : (nunique l <= List.length l)%nat.
Proof.
  apply NoDup_incl_length; [apply unique_NoDup|].
  intros x Hx; now apply unique_In.
Qed.

Lemma nunique_positive (l : list string) : l <> [] -> (1 <= nunique l)%nat.
Proof.
  intros H; apply unique_nonempty in H; unfold nunique.
  destruct (unique l); [congruence | simpl; lia].
Qed.

(** X13. The shape of a per-subject figure. It exists only for a
    selection, whose name its title ends with; it has as many bar colours
    as rows; and the count that places the right end of the pass line is the
    number of distinct subjects among its rows, at least one and at most the
    number of rows. *)
Theorem grades_figure_shape (df : DataFrame) (student_data : option StudentData)
  (selected_ue : option string) (fig : GradesFigure)
  (Hfig : update_grades_graph df student_data selected_ue = GradesFig fig) :
  (exists sd, student_data = Some sd /\
              gf_title fig = ("Performance détaillée de " ++ student_name sd)%string) /\
  List.length (colors_per_grade fig) = List.length (plot_data fig) /\
  distinct_count (map (fun row => Matiere (pr_row row)) (plot_data fig))
                 (gf_unique_matieres fig) /\
  (1 <= gf_unique_matieres fig <= List.length (plot_data fig))%nat.
Proof.
  destruct student_data as [sd|]; [|discriminate].
  pose proof (comparison_rows_joined df sd selected_ue) as Hrows.
  unfold update_grades_graph in *.
  destruct (filter_ue selected_ue (student_records sd)) as [|r l] eqn:E;
    [discriminate|].
  cbn [empty] in *; cbn [comparison_rows plot_data] in Hrows.
  rewrite Hrows in Hfig.
  assert (Efig : fig =
            mkGradesFigure
              ("Performance détaillée de " ++ student_name sd)%string
              (map (joined_row df) (r :: l))
              (map (fun row => color_per_grade (Note (pr_row row)))
                   (map (joined_row df) (r :: l)))
              (List.length
                 (unique (map (fun row => Matiere (pr_row row))
                              (map (joined_row df) (r :: l))))))
    by (injection Hfig as <-; reflexivity).
  rewrite Efig; clear Efig Hfig.
  cbn [gf_title plot_data colors_per_grade gf_unique_matieres].
  split; [eauto|]; split; [apply length_map|]; split.
  - apply nunique_distinct_count.
  - split.
    + apply nunique_positive; discriminate.
    + rewrite <- (length_map (fun row => Matiere (pr_row row))).
      apply nunique_le_length.
Qed.

(** ** The per-unit chart *)

(** X14. For a selection made from the table, the per-unit chart is a
    figure, never a placeholder, and it has one bar for each available unit
    of the selection, in the order of the unit dropdown, with one text and
    one colour per bar. *)
Theorem average_chart_units (df : DataFrame) (selected : option string)
  (sd : StudentData)
  (Hsel : fst (prepare_student_data df selected) = Some sd) :
  exists fig : AverageFigure,
    update_average_grade_chart (Some sd) = AverageFig fig /\
    map av_UE (average_grades fig) = available_ues sd /\
    List.length (bar_texts fig) = List.length (average_grades fig) /\
    List.length (bar_colors fig) = List.length (average_grades fig).
Proof.
  pose proof (selection_records_nonempty _ _ _ Hsel) as Hne.
  pose proof (average_rows_ascending sd) as Hasc.
  pose proof (average_rows_units sd) as Hperm.
  destruct (prepare_student_data_some _ _ _ Hsel) as [a [b [_ [_ [_ E]]]]].
  assert (Eues : available_ues sd = sorted (unique (map UE (student_records sd))))
    by (rewrite E; reflexivity).
  unfold update_average_grade_chart in *.
  destruct (student_records sd) as [|r l] eqn:Er; [congruence|].
  cbn [empty] in *; eexists; split; [reflexivity|].
  cbn [average_rows average_grades bar_texts bar_colors] in *.
  rewrite !length_map; repeat split.
  rewrite Eues; symmetry; apply ascending_perm_eq; auto.
  apply sorted_ascending.
Qed.

(** X15. The two charts agree: the bar of a unit (with a non-empty code)
    in the per-unit chart is computed, by the library's grouped mean and
    its rounding to one decimal, on exactly the notes, in the same order,
    that the per-subject chart shows as the student's bars when that unit is
    the filter; and those notes are never none. *)
Theorem unit_bar_is_mean_of_filtered_rows (df : DataFrame) (sd : StudentData) :
  Forall (fun row =>
            av_UE row <> EmptyString ->
            map (fun r => Note (pr_row r))
                (comparison_rows
                   (update_grades_graph df (Some sd) (Some (av_UE row)))) <> [] /\
            av_Note row =
              Some (column_round fp 1
                      (grouped_mean fp
                         (map (fun r => Note (pr_row r))
                            (comparison_rows
                               (update_grades_graph df (Some sd)
                                  (Some (av_UE row))))))))
         (average_rows (update_average_grade_chart (Some sd))).
Proof.
  apply average_rows_Forall; intros ue Hue; cbn [average_row_of av_UE av_Note].
  intros Hne; rewrite comparison_rows_joined, map_map; cbn [joined_row pr_row].
  unfold filter_ue; rewrite (truthy_nonempty ue Hne).
  pose proof (unit_mean_some _ _ Hue) as Hm; unfold unit_rows in *.
  destruct (filter (fun r => String.eqb (UE r) ue) (student_records sd))
    as [|r0 l0]; [discriminate Hm|].
  split; [discriminate | reflexivity].
Qed.

(** ** One refresh of the page *)

(** X18. The outputs of a refresh stand or fall together. Without a
    selection (no student chosen, a name that does not resolve, or the empty
    table, which resolves nothing) the unit dropdown is empty and the two
    charts and the two cards are their placeholders. With a selection the
    unit dropdown offers its units, the per-unit chart is a figure and both
    cards are cards; the per-subject chart is a figure when no unit is
    chosen. *)
Theorem refresh_outputs_together (df : DataFrame)
  (student_dropdown ue_dropdown : option string) :
  match store (refresh df student_dropdown ue_dropdown) with
  | None =>
      ue_options (refresh df student_dropdown ue_dropdown) = [] /\
      grades_graph (refresh df student_dropdown ue_dropdown) =
        GradesPlaceholder "Aucun étudiant sélectionné." /\
      average_chart (refresh df student_dropdown ue_dropdown) =
        AveragePlaceholder "Aucun étudiant sélectionné." /\
      moyenne_generale (refresh df student_dropdown ue_dropdown) =
        Text "Pas de données" /\
      nombre_matieres (refresh df student_dropdown ue_dropdown) =
        Text "Pas de données"
  | Some sd =>
      map value (ue_options (refresh df student_dropdown ue_dropdown)) =
        available_ues sd /\
      (exists fig, average_chart (refresh df student_dropdown ue_dropdown) =
                     AverageFig fig) /\
      (exists card, moyenne_generale (refresh df student_dropdown ue_dropdown) =
                      Card card) /\
      (exists card, nombre_matieres (refresh df student_dropdown ue_dropdown) =
                      Card card) /\
      (exists fig, grades_graph (refresh df student_dropdown None) = GradesFig fig)
  end /\
  store (refresh [] student_dropdown ue_dropdown) = None.
Proof.
  split.
  - unfold refresh; cbn [store ue_options grades_graph average_chart
                           moyenne_generale nombre_matieres].
    destruct (fst (prepare_student_data df student_dropdown)) as [sd|] eqn:E.
    + pose proof (selection_records_nonempty _ _ _ E) as Hne.
      split; [now apply (ue_dropdown_values df student_dropdown)|].
      unfold update_average_grade_chart, update_statistics,
        update_grades_graph, filter_ue.
      cbn [truthy].
      destruct (student_records sd) as [|r l]; [congruence|].
      cbn [empty fst snd]; repeat split; eexists; reflexivity.
    + repeat split.
  - unfold refresh; cbn [store].
    destruct student_dropdown as [name|]; [|reflexivity].
    rewrite prepare_student_data_cases.
    now rewrite orb_true_r.
Qed.

(** ** The initial selection *)

Lemma student_options_nil (df : DataFrame) :
  student_options df = [] <-> df = [].
Proof.
  split; [|intros ->; reflexivity].
  destruct df as [|r df]; [reflexivity|]; intros E.
  assert (Hin : In (full_name r) (map value (student_options (r :: df)))).
  { rewrite student_options_values; apply unique_students_In.
    exists r; split; auto; now left. }
  rewrite E in Hin; destruct Hin.
Qed.

Lemma initial_student_In (df : DataFrame) (name : string) :
  initial_student df = Some name ->
  exists r, In r df /\ full_name r = name.
Proof.
  unfold initial_student; intros Hname.
  apply unique_students_In; rewrite <- student_options_values.
  destruct (student_options df) as [|o opts]; [discriminate|].
  injection Hname as <-; now left.
Qed.

(** X19. The student dropdown starts empty exactly on the empty table;
    otherwise it starts on the first option, which is the rendered name of a
    row of the table and comes before or equals every option in the
    order of the rendered names. *)
Theorem initial_student_first (df : DataFrame) :
  (initial_student df = None <-> df = []) /\
  (forall name, initial_student df = Some name ->
     (exists r, In r df /\ full_name r = name) /\
     Forall (str_le name) (map value (student_options df))).
Proof.
  unfold initial_student; split.
  - rewrite <- student_options_nil.
    destruct (student_options df); split; congruence.
  - intros name Hname; split.
    + revert Hname; unfold initial_student; apply initial_student_In.
    + assert (Hsorted : StronglySorted str_le (map value (student_options df)))
        by (rewrite student_options_values; apply sorted_ascending).
      destruct (student_options df) as [|o opts]; [discriminate|].
      injection Hname as <-; cbn [map] in *.
      inversion Hsorted as [|? ? _ Hall]; subst.
      constructor; [apply str_le_refl | exact Hall].
Qed.

(** X20. When no first name of a non-empty table contains a space, the
    page opens populated: the initial value of the student dropdown resolves
    to a selection that bears that name, and the first refresh shows a
    per-subject figure. *)
Theorem initial_page_populated (df : DataFrame)
  (Hdf : df <> [])
  (Hnames : Forall (fun r => ~ contains_space (Prenom r)) df) :
  exists (name : string) (sd : StudentData) (fig : GradesFigure),
    initial_student df = Some name /\
    store (refresh df (initial_student df) None) = Some sd /\
    student_name sd = name /\
    grades_graph (refresh df (initial_student df) None) = GradesFig fig.
Proof.
  destruct (initial_student df) as [name|] eqn:E.
  - destruct (initial_student_In df name E) as [r [Hr <-]].
    rewrite Forall_forall in Hnames.
    pose proof (prepare_student_data_full_name df r Hr (Hnames r Hr)) as Hsd.
    assert (Hne : filter (student_mask (Prenom r) (Nom r)) df <> []).
    { apply mask_filter_nonempty, mask_any; eauto. }
    unfold refresh; cbn [store grades_graph]; rewrite Hsd; cbn [fst].
    unfold update_grades_graph, filter_ue; cbn [truthy student_records].
    destruct (filter (student_mask (Prenom r) (Nom r)) df) as [|r0 l] eqn:Ef;
      [congruence|].
    cbn [empty]; do 3 eexists; repeat split.
  - exfalso; apply Hdf, student_options_nil.
    unfold initial_student in E.
    destruct (student_options df); [reflexivity | discriminate].
Qed.

(** ** Subject counts, per unit and overall *)

Lemma list_sum_perm (l1 l2 : list nat) :
  Permutation l1 l2 -> list_sum l1 = list_sum l2.
Proof. induction 1; simpl; lia. Qed.

(** The distinct subjects of the records are covered by the distinct
    subjects of their units. *)
Lemma subjects_covered_by_units (records : DataFrame) :
  (nunique (map Matiere records) <=
   list_sum (map (fun ue => nunique (map Matiere (unit_rows records ue)))
                 (sorted (unique (map UE records)))))%nat.
Proof.
  set (keys := sorted (unique (map UE records))).
  rewrite <- (map_map (fun ue => unique (map Matiere (unit_rows records ue)))
                      (@List.length string)).
  rewrite <- length_concat.
  apply NoDup_incl_length; [apply unique_NoDup|].
  intros s Hs; apply unique_In, in_map_iff in Hs; destruct Hs as [r [<- Hr]].
  apply in_concat; exists (unique (map Matiere (unit_rows records (UE r)))); split.
  - apply in_map_iff; exists (UE r); split; [reflexivity|].
    apply sorted_unique_In; now apply in_map.
  - apply unique_In, in_map; now apply unit_rows_In.
Qed.

(** X21. The subject counts of the two outputs fit together. In the
    per-unit chart every bar counts at least one subject and at most as
    many as the unit has records, and there are at most as many bars as
    records; the number of distinct subjects that the card shows is at most
    the sum of the per-unit counts (a subject taken in two units is counted
    in both). *)
Theorem subject_counts_consistent (sd : StudentData) :
  Forall (fun row =>
            (1 <= av_Matiere row <=
             List.length (unit_rows (student_records sd) (av_UE row)))%nat)
         (average_rows (update_average_grade_chart (Some sd))) /\
  (List.length (average_rows (update_average_grade_chart (Some sd))) <=
   List.length (student_records sd))%nat /\
  (nunique (map Matiere (student_records sd)) <=
   list_sum (map av_Matiere
               (average_rows (update_average_grade_chart (Some sd)))))%nat /\
  (student_records sd <> [] ->
   snd (update_statistics (Some sd)) =
     Card (mkStatCard "Nombre de matières"
             (string_of_nat (nunique (map Matiere (student_records sd))))
             "text-primary")).
Proof.
  split; [|split; [|split]].
  - apply average_rows_Forall; intros ue Hue.
    cbn [average_row_of av_Matiere av_UE]; split.
    + apply nunique_positive.
      apply in_map_iff in Hue; destruct Hue as [r [E Hr]].
      assert (Hin : In r (unit_rows (student_records sd) ue))
        by now apply unit_rows_In.
      destruct (unit_rows (student_records sd) ue); [contradiction | discriminate].
    + rewrite <- (length_map Matiere); apply nunique_le_length.
  - rewrite <- (Permutation_length (average_rows_perm sd)), length_map.
    rewrite <- (Permutation_length (sorted_perm _)).
    rewrite <- (length_map UE (student_records sd)).
    apply nunique_le_length.
  - rewrite <- (list_sum_perm _ _
                  (Permutation_map av_Matiere (average_rows_perm sd))).
    rewrite map_map; cbn [average_row_of av_Matiere].
    apply subjects_covered_by_units.
  - intros Hne; unfold update_statistics.
    destruct (student_records sd); [congruence | reflexivity].
Qed.

End Pipeline.

(** * The properties at given tables

    The counterexample of C3, and the properties that have a condition at
    tables that meet it. Where a table must come with an arithmetic, it is
    the one without rounding error, which keeps the laws of whole grades. *)



(** C3, the claim as stated, fails: for the student of [retake_table] the
    comparison has two rows, whatever the arithmetic, and the selection has
    one distinct subject. *)
Lemma comparison_rows_repeated_subject :
  fst (prepare_student_data retake_table (Some "Jean Dupont"%string)) =
    Some (mkStudentData retake_table ["UE1"%string] "Jean Dupont") /\
  (forall fp : Arithmetic,
      List.length
        (comparison_rows
           (update_grades_graph fp retake_table
              (Some (mkStudentData retake_table ["UE1"%string] "Jean Dupont"))
              None)) = 2%nat) /\
  List.length (nodup string_dec (map Matiere retake_table)) = 1%nat.
Proof. split; [reflexivity|]; split; [intros fp; reflexivity | reflexivity]. Qed.

Lemma class_range_brackets_note_witness :
  Forall (fun row =>
            exists mean lo hi : Q,
              Moyenne_Classe row = Some mean /\
              Min_Classe row = Some lo /\
              Max_Classe row = Some hi /\
              (lo <= Note (pr_row row))%Q /\ (Note (pr_row row) <= hi)%Q)
         (comparison_rows
            (update_grades_graph exact_arithmetic
               [mkRecord "Dupont" "Jean" "Math" 8 "UE1";
                mkRecord "Martin" "Alice" "Math" 15 "UE1";
                mkRecord "Dupont" "Jean" "Chemistry" 10 "UE2"]
               (Some (mkStudentData
                        [mkRecord "Dupont" "Jean" "Math" 8 "UE1";
                         mkRecord "Dupont" "Jean" "Chemistry" 10 "UE2"]
                        ["UE1"; "UE2"]%string "Jean Dupont"))
               (Some "UE1"%string))).
Proof.
  apply (class_range_brackets_note exact_arithmetic
           [mkRecord "Dupont" "Jean" "Math" 8 "UE1";
            mkRecord "Martin" "Alice" "Math" 15 "UE1";
            mkRecord "Dupont" "Jean" "Chemistry" 10 "UE2"]
           (Some "Jean Dupont"%string)).
  reflexivity.
Defined.



Lemma offered_unit_has_rows_witness :
  exists fig : GradesFigure,
    update_grades_graph exact_arithmetic retake_table (Some retake_selection)
      (Some "UE1"%string) = GradesFig fig /\
    plot_data fig <> [] /\
    Forall (fun row =>
              UE (pr_row row) = "UE1"%string /\
              In (pr_row row) (student_records retake_selection))
           (plot_data fig).
Proof.
  apply (offered_unit_has_rows exact_arithmetic retake_table
           (Some "Jean Dupont"%string)).
  - reflexivity.
  - simpl; auto.
  - discriminate.
Defined.

(** The per-subject figure of the student of [retake_table]. *)
Definition retake_figure : GradesFigure :=
  mkGradesFigure "Performance détaillée de Jean Dupont"
    (map (joined_row exact_arithmetic retake_table) retake_table)
    ["red"; "green"]%string 1.

Lemma grades_figure_shape_witness :
  (exists sd,
      Some retake_selection = Some sd /\
      gf_title retake_figure =
        ("Performance détaillée de " ++ student_name sd)%string) /\
  List.length (colors_per_grade retake_figure) =
    List.length (plot_data retake_figure) /\
  distinct_count
    (map (fun row => Matiere (pr_row row)) (plot_data retake_figure))
    (gf_unique_matieres retake_figure) /\
  (1 <= gf_unique_matieres retake_figure
   <= List.length (plot_data retake_figure))%nat.
Proof.
  apply (grades_figure_shape exact_arithmetic retake_table
           (Some retake_selection) None).
  reflexivity.
Defined.

Lemma average_chart_units_witness :
  exists fig : AverageFigure,
    update_average_grade_chart exact_arithmetic (Some retake_selection) =
      AverageFig fig /\
    map av_UE (average_grades fig) = available_ues retake_selection /\
    List.length (bar_texts fig) = List.length (average_grades fig) /\
    List.length (bar_colors fig) = List.length (average_grades fig).
Proof.
  apply (average_chart_units exact_arithmetic retake_table
           (Some "Jean Dupont"%string)).
  reflexivity.
Defined.

Lemma initial_page_populated_witness :
  exists (name : string) (sd : StudentData) (fig : GradesFigure),
    initial_student retake_table = Some name /\
    store (refresh exact_arithmetic retake_table (initial_student retake_table)
             None) = Some sd /\
    student_name sd = name /\
    grades_graph
      (refresh exact_arithmetic retake_table (initial_student retake_table) None) =
      GradesFig fig.
Proof.
  apply (initial_page_populated exact_arithmetic retake_table).
  - discriminate.
  - repeat constructor; apply no_space_decide; reflexivity.
Defined.
